(** * Training drivers of nnabla-examples: the VQ-VAE trainer and the
      Tacotron2 trainer

    A shallow embedding of
      - [VAEs/vq-vae/trainers/vq_vae_train.py]  (class [VQVAEtrainer]) and
      - [speech-synthesis/TTS/tacotron2/train.py] (class [Tacotron2Trainer]).

    Both classes are sequential glue over the nnabla framework.  The
    framework objects they drive (model, solver, communicator, data
    iterators, monitors) are collaborators: their operations are fields of
    a [Framework] class or of the records handed to the trainer, and every
    call the drivers make on them is appended to a call log kept in the
    state.  Python state is threaded through a state-and-exception monad;
    a raised exception keeps the state reached so far, as in Python.

    Numbers: tensors are lists of rationals and scalars are rationals, an
    exact idealisation of the float arithmetic.  A numpy division by zero
    gives a non-finite float (inf or nan), kept as [NonFinite]. *)

From Stdlib Require Import ZArith QArith Qround Lqa List Ascii String DecimalString DecimalZ
  DecimalPos.
From stdpp Require Import base gmap strings list.

(** ** Python and numpy primitives used by both drivers *)

Module Py.

Inductive exn :=
| ZeroDivisionError | AttributeError | UnboundLocalError
| KeyError | AssertionError | OSError.

Inductive outcome (St A : Type) :=
| Ret (a : A) (s : St)
| Exc (e : exn) (s : St).
Arguments Ret {St A} a s.
Arguments Exc {St A} e s.

(** The state in which a call ends, whether it returned or raised. *)
Definition final {St A} (o : outcome St A) : St :=
  match o with Ret _ s => s | Exc _ s => s end.

Definition M (St A : Type) : Type := St -> outcome St A.

Definition ret {St A} (a : A) : M St A := fun s => Ret a s.

Definition bind {St A B} (m : M St A) (k : A -> M St B) : M St B :=
  fun s => match m s with
           | Ret a s' => k a s'
           | Exc e s' => Exc e s'
           end.

Definition raise {St A} (e : exn) : M St A := fun s => Exc e s.
Definition gets {St A} (f : St -> A) : M St A := fun s => Ret (f s) s.
Definition modify {St} (f : St -> St) : M St unit := fun s => Ret tt (f s).

#[global] Instance M_ret St : MRet (M St) := fun A => @ret St A.
#[global] Instance M_bind St : MBind (M St) := fun A B k m => @bind St A B m k.

(** [for x in xs: acc = body(acc, x)], the loop-carried locals in [acc]. *)
Fixpoint for_fold {St A X} (body : A -> X -> M St A) (acc : A) (xs : list X)
  : M St A :=
  match xs with
  | [] => ret acc
  | x :: xs' => bind (body acc x) (fun acc' => for_fold body acc' xs')
  end.

(** [range(k)]: empty when [k <= 0]. *)
Definition range (k : Z) : list nat := seq 0 (Z.to_nat k).

(** Integer floor division [a // b]. *)
Definition floordiv {St} (a b : Z) : M St Z :=
  if (b =? 0)%Z then raise ZeroDivisionError else ret (a / b)%Z.

(** [str(n)] for an integer. *)
Definition str (n : Z) : string := NilZero.string_of_int (Z.to_int n).

(** [os.path.join(a, b)] of posixpath. *)
Definition startswith_sep (b : string) : bool :=
  match b with
  | String c _ => Ascii.eqb c "/"%char
  | EmptyString => false
  end.

Fixpoint endswith_sep (a : string) : bool :=
  match a with
  | EmptyString => false
  | String c EmptyString => Ascii.eqb c "/"%char
  | String _ a' => endswith_sep a'
  end.

Definition path_join (a b : string) : string :=
  if startswith_sep b then b
  else if String.eqb a EmptyString || endswith_sep a then a +:+ b
  else a +:+ "/" +:+ b.

(** numpy floats: a finite value or inf/nan. *)
Inductive npfloat := Finite (q : Q) | NonFinite.

Definition np_add (a b : npfloat) : npfloat :=
  match a, b with
  | Finite x, Finite y => Finite (x + y)
  | _, _ => NonFinite
  end.

Definition np_mul (a b : npfloat) : npfloat :=
  match a, b with
  | Finite x, Finite y => Finite (x * y)
  | _, _ => NonFinite
  end.

(** numpy true division: dividing by zero warns and yields inf or nan. *)
Definition np_div (a b : npfloat) : npfloat :=
  match a, b with
  | Finite x, Finite y => if Qeq_bool y 0 then NonFinite else Finite (x / y)
  | _, _ => NonFinite
  end.

Definition np_int (n : Z) : npfloat := Finite (inject_Z n).

(** Equality of float values up to the representation of the rational. *)
Definition np_eq (a b : npfloat) : Prop :=
  match a, b with
  | Finite x, Finite y => x == y
  | NonFinite, NonFinite => True
  | _, _ => False
  end.

Definition np_sum (l : list Q) : Q := fold_left Qplus l 0%Q.

(** [np.mean]; of an empty array it is nan. *)
Definition np_mean (l : list Q) : npfloat :=
  np_div (Finite (np_sum l)) (np_int (Z.of_nat (length l))).

(** [np.var(x)]: the mean of the squared deviations from the mean. *)
Definition np_var (l : list Q) : npfloat :=
  match np_mean l with
  | Finite m => np_mean (map (fun x : Q => (x - m) * (x - m))%Q l)
  | NonFinite => NonFinite
  end.

(** A local that starts as the Python integer [0] and becomes a numpy value
    at its first [+=]. *)
Inductive accum := IntZero | Arr (v : npfloat).

Definition accum_add (a : accum) (l : npfloat) : accum :=
  match a with
  | IntZero => Arr (np_add (Finite 0) l)
  | Arr v => Arr (np_add v l)
  end.

(** [acc / d] for an integer [d]: Python's [0 / 0] raises, numpy's does not. *)
Definition accum_div {St} (a : accum) (d : Z) : M St npfloat :=
  match a with
  | IntZero => if (d =? 0)%Z then raise ZeroDivisionError else ret (Finite 0)
  | Arr v => ret (np_div v (np_int d))
  end.

(** [int(np.ceil(size / batch_size / n_procs))] on Python integers. *)
Definition ceil_div3 {St} (size batch_size n_procs : Z) : M St Z :=
  if ((batch_size =? 0) || (n_procs =? 0))%Z then raise ZeroDivisionError
  else ret (Qceiling (inject_Z size / inject_Z batch_size / inject_Z n_procs)).

End Py.

(** ** The VQ-VAE trainer ([vq_vae_train.py]) *)

Module VQVAE.
Import Py.

(** [convert_to_var]: a batch is divided by 255 unless every value is
    strictly below 1, then rescaled by [(img - 0.5) / 0.5]. *)
Definition np_all_lt_1 (img : list Q) : bool :=
  forallb (fun x => negb (Qle_bool 1 x)) img.

Definition convert_to_var (img : list Q) : list Q :=
  let img := if negb (np_all_lt_1 img) then map (fun x => x / 255)%Q img
             else img in
  map (fun x => (x - (1#2)) / (1#2))%Q img.

(** The nnabla objects the trainer drives.  Forward passes only compute
    values; the parameter store is written by [solver_update] alone. *)
Class Framework := {
  Params : Type;
  Grads : Type;
  SolverStates : Type;
  (** [self.model(img_var, test)]: vq_loss, img_recon, perplexity *)
  model : Params -> list Q -> bool -> npfloat * list Q * npfloat;
  (** [solver.zero_grad()] *)
  zero_grad : Grads -> Grads;
  (** [loss.backward(clear_buffer=True)] for the loss built on [img_var]
      with the given data variance: accumulates into the gradient buffers *)
  loss_backward : Params -> list Q -> npfloat -> Grads -> Grads;
  (** [solver.weight_decay(rate)] *)
  solver_weight_decay : Q -> Params -> Grads -> Grads;
  (** [solver.update()]: reads the learning rate, writes states and
      parameters *)
  solver_update : Q -> SolverStates -> Params -> Grads -> SolverStates * Params
}.

(** Calls made on the framework objects and on the progress bar, in
    program order. *)
Inductive call :=
| DataNext (validation : bool)
| ModelForward (test : bool)
| SetDescription (batch_loss : npfloat)
| SetLearningRate (lr : Q)
| SetParameters
| ZeroGrad
| Backward
| AllReduce (division inplace : bool)
| WeightDecay (rate : Q)
| Update
| SaveParameters (path : string)
| SaveStates (path : string)
| LoadParameters (path : string)
| LoadStates (path : string).

Definition is_data_next (c : call) : bool :=
  match c with DataNext _ => true | _ => false end.
Definition is_forward (c : call) : bool :=
  match c with ModelForward _ => true | _ => false end.
Definition is_all_reduce (c : call) : bool :=
  match c with AllReduce _ _ => true | _ => false end.
Definition is_update (c : call) : bool :=
  match c with Update => true | _ => false end.
Definition is_backward (c : call) : bool :=
  match c with Backward => true | _ => false end.

(** A data iterator: [size], [batch_size], the images of its data source
    and the first array of the batch returned by the i-th [next()]. *)
Record loader := {
  size : Z;
  batch_size : Z;
  images : list Q;
  batches : nat -> list Q
}.

Record config := {
  train_weight_decay : Q;
  train_learning_rate_decay_epochs : list Z;
  train_learning_rate_decay_factor : Q;
  monitor_path : string;
  monitor_train_recon : string;
  monitor_val_recon : string;
  dataset_name_cfg : string
}.

Section Trainer.
Context `{FW : Framework}.

(** The communicator: rank, worker count and its collective on the
    gradient buffers, [all_reduce(grads, division, inplace)]. *)
Record communicator := {
  n_procs : Z;
  rank : Z;
  all_reduce : bool -> bool -> Grads -> Grads
}.

Inductive blob :=
| ParamsFile (p : Params)
| SolverFile (st : SolverStates)
| ImageFile (img : list Q).

(** The attributes set by [__init__]; none is reassigned afterwards. *)
Record trainer := {
  data_loader : loader;
  val_data_loader : loader;
  comm : communicator;
  iterations_per_epoch : Z;
  weight_decay : Q;
  learning_rate_decay_epochs : list Z;
  learning_rate_decay_factor : Q;
  train_recon_path : string;
  val_recon_path : string;
  dataset_name : string;
  val_iterations_per_epoch : option Z;
  data_variance : npfloat
}.

(** What the trainer mutates: the global parameter store and its gradient
    buffers, the solver, the iterators' positions, the monitors, the file
    system and the log of framework calls. *)
Record state := {
  params : Params;
  grads : Grads;
  learning_rate : Q;
  solver_states : SolverStates;
  loader_pos : nat;
  val_loader_pos : nat;
  monitor_train_loss : list (Z * npfloat);
  monitor_val_loss : list (Z * npfloat);
  dirs : gset string;
  files : gmap string blob;
  calls : list call
}.

Definition log (c : call) (s : state) : state :=
  {| params := params s; grads := grads s; learning_rate := learning_rate s;
     solver_states := solver_states s; loader_pos := loader_pos s;
     val_loader_pos := val_loader_pos s;
     monitor_train_loss := monitor_train_loss s;
     monitor_val_loss := monitor_val_loss s;
     dirs := dirs s; files := files s; calls := calls s ++ [c] |}.

Definition set_params (p : Params) (s : state) : state :=
  {| params := p; grads := grads s; learning_rate := learning_rate s;
     solver_states := solver_states s; loader_pos := loader_pos s;
     val_loader_pos := val_loader_pos s;
     monitor_train_loss := monitor_train_loss s;
     monitor_val_loss := monitor_val_loss s;
     dirs := dirs s; files := files s; calls := calls s |}.

Definition set_grads (g : Grads) (s : state) : state :=
  {| params := params s; grads := g; learning_rate := learning_rate s;
     solver_states := solver_states s; loader_pos := loader_pos s;
     val_loader_pos := val_loader_pos s;
     monitor_train_loss := monitor_train_loss s;
     monitor_val_loss := monitor_val_loss s;
     dirs := dirs s; files := files s; calls := calls s |}.

Definition set_lr (lr : Q) (s : state) : state :=
  {| params := params s; grads := grads s; learning_rate := lr;
     solver_states := solver_states s; loader_pos := loader_pos s;
     val_loader_pos := val_loader_pos s;
     monitor_train_loss := monitor_train_loss s;
     monitor_val_loss := monitor_val_loss s;
     dirs := dirs s; files := files s; calls := calls s |}.

Definition set_solver_states (st : SolverStates) (s : state) : state :=
  {| params := params s; grads := grads s; learning_rate := learning_rate s;
     solver_states := st; loader_pos := loader_pos s;
     val_loader_pos := val_loader_pos s;
     monitor_train_loss := monitor_train_loss s;
     monitor_val_loss := monitor_val_loss s;
     dirs := dirs s; files := files s; calls := calls s |}.

Definition set_pos (validation : bool) (n : nat) (s : state) : state :=
  {| params := params s; grads := grads s; learning_rate := learning_rate s;
     solver_states := solver_states s;
     loader_pos := if validation then loader_pos s else n;
     val_loader_pos := if validation then n else val_loader_pos s;
     monitor_train_loss := monitor_train_loss s;
     monitor_val_loss := monitor_val_loss s;
     dirs := dirs s; files := files s; calls := calls s |}.

Definition add_monitor (train : bool) (e : Z * npfloat) (s : state) : state :=
  {| params := params s; grads := grads s; learning_rate := learning_rate s;
     solver_states := solver_states s; loader_pos := loader_pos s;
     val_loader_pos := val_loader_pos s;
     monitor_train_loss :=
       if train then monitor_train_loss s ++ [e] else monitor_train_loss s;
     monitor_val_loss :=
       if train then monitor_val_loss s else monitor_val_loss s ++ [e];
     dirs := dirs s; files := files s; calls := calls s |}.

Definition add_dir (d : string) (s : state) : state :=
  {| params := params s; grads := grads s; learning_rate := learning_rate s;
     solver_states := solver_states s; loader_pos := loader_pos s;
     val_loader_pos := val_loader_pos s;
     monitor_train_loss := monitor_train_loss s;
     monitor_val_loss := monitor_val_loss s;
     dirs := {[ d ]} ∪ dirs s; files := files s; calls := calls s |}.

Definition write_file (path : string) (b : blob) (s : state) : state :=
  {| params := params s; grads := grads s; learning_rate := learning_rate s;
     solver_states := solver_states s; loader_pos := loader_pos s;
     val_loader_pos := val_loader_pos s;
     monitor_train_loss := monitor_train_loss s;
     monitor_val_loss := monitor_val_loss s;
     dirs := dirs s; files := <[ path := b ]> (files s); calls := calls s |}.

(** [os.makedirs(d, exist_ok=True)] *)
Definition makedirs (d : string) : M state unit := modify (add_dir d).

Definition imagenet : string := "imagenet".

(** [VQVAEtrainer.__init__] *)
Definition init (data_loader val_data_loader : loader) (cfg : config)
    (comm : communicator) : M state trainer :=
  ipe ← ceil_div3 (size data_loader) (batch_size data_loader) (n_procs comm);
  let train_recon_path := path_join (monitor_path cfg) (monitor_train_recon cfg) in
  let val_recon_path := path_join (monitor_path cfg) (monitor_val_recon cfg) in
  makedirs train_recon_path;;
  makedirs val_recon_path;;
  let mk v dv :=
    {| data_loader := data_loader; val_data_loader := val_data_loader;
       comm := comm; iterations_per_epoch := ipe;
       weight_decay := train_weight_decay cfg;
       learning_rate_decay_epochs := train_learning_rate_decay_epochs cfg;
       learning_rate_decay_factor := train_learning_rate_decay_factor cfg;
       train_recon_path := train_recon_path;
       val_recon_path := val_recon_path;
       dataset_name := dataset_name_cfg cfg;
       val_iterations_per_epoch := v; data_variance := dv |} in
  if negb (String.eqb (dataset_name_cfg cfg) imagenet) then
    vipe ← ceil_div3 (size val_data_loader) (batch_size val_data_loader)
                     (n_procs comm);
    mret (mk (Some vipe)
             (np_var (map (fun x => x / 255)%Q (images data_loader))))
  else mret (mk None (np_int 1)).

(** [save_checkpoint(path, epoch)] *)
Definition save_checkpoint (t : trainer) (path : string) (epoch : Z)
  : M state unit :=
  let file_name := path_join path ("epoch_" +:+ str epoch) in
  makedirs file_name;;
  p ← gets params;
  modify (fun s => log (SaveParameters (path_join file_name "params.h5"))
                     (write_file (path_join file_name "params.h5")
                                 (ParamsFile p) s));;
  st ← gets solver_states;
  modify (fun s => log (SaveStates (path_join file_name "solver.h5"))
                     (write_file (path_join file_name "solver.h5")
                                 (SolverFile st) s)).

(** [load_checkpoint(path)] *)
Definition load_checkpoint (t : trainer) (path : string) : M state unit :=
  fs ← gets files;
  match fs !! path_join path "params.h5" with
  | Some (ParamsFile p) =>
      modify (fun s => log (LoadParameters (path_join path "params.h5"))
                         (set_params p s))
  | _ => raise OSError
  end;;
  fs ← gets files;
  match fs !! path_join path "solver.h5" with
  | Some (SolverFile st) =>
      modify (fun s => log (LoadStates (path_join path "solver.h5"))
                         (set_solver_states st s))
  | _ => raise OSError
  end.

(** [F.mean(F.squared_error(a, b))] *)
Definition mean_squared_error (a b : list Q) : npfloat :=
  np_mean (zip_with (fun x y => (x - y) * (x - y))%Q a b).

(** [compute_loss(img_var, test)] *)
Definition compute_loss (t : trainer) (img_var : list Q) (test : bool)
  : M state (npfloat * npfloat * npfloat * list Q) :=
  p ← gets params;
  modify (log (ModelForward test));;
  let '(vq_loss, img_recon, perplexity) := model p img_var test in
  let recon_loss :=
    np_div (mean_squared_error img_recon img_var) (data_variance t) in
  let loss := np_add recon_loss vq_loss in
  mret (loss, recon_loss, perplexity, img_recon).

(** [save_image(img, path)]: the figure written holds [img*0.5 + 0.5]. *)
Definition save_image (img : list Q) (path : string) : M state unit :=
  modify (write_file path (ImageFile (map (fun x => x * (1#2) + (1#2))%Q img))).

(** [log_loss(epoch, loss, train)] *)
Definition log_loss (epoch : Z) (loss : npfloat) (train : bool)
  : M state unit :=
  modify (add_monitor train (epoch, loss)).

(** [log_image(epoch, img_recon, train)] *)
Definition log_image (t : trainer) (epoch : Z) (img_recon : list Q)
    (train : bool) : M state unit :=
  let name := "epoch_" +:+ str epoch +:+ ".png" in
  if train then save_image img_recon (path_join (train_recon_path t) name)
  else save_image img_recon (path_join (val_recon_path t) name).

(** [loader.next()]: the first array of the next batch. *)
Definition data_next (t : trainer) (validation : bool) : M state (list Q) :=
  i ← gets (if validation then val_loader_pos else loader_pos);
  modify (fun s => log (DataNext validation) (set_pos validation (S i) s));;
  mret (batches (if validation then val_data_loader t else data_loader t) i).

(** The input variable of a batch: ImageNet batches are taken as they
    are, the others go through [convert_to_var]. *)
Definition input_var (t : trainer) (data : list Q) : list Q :=
  if String.eqb (dataset_name t) imagenet then data else convert_to_var data.

(** The body of the loop of [train], one batch. *)
Definition train_batch (t : trainer) (epoch : Z) (epoch_loss : accum)
    (i : nat) : M state accum :=
  data ← data_next t false;
  let img_var := input_var t data in
  '(loss, recon_loss, perplexity, img_recon) ← compute_loss t img_var false;
  (if Nat.eqb i 0 then log_image t epoch img_recon true else mret tt);;
  modify (log (SetDescription loss));;
  let epoch_loss := accum_add epoch_loss loss in
  modify (log SetParameters);;
  modify (fun s => log ZeroGrad (set_grads (zero_grad (grads s)) s));;
  modify (fun s =>
    log Backward
      (set_grads (loss_backward (params s) img_var (data_variance t) (grads s))
                 s));;
  modify (fun s =>
    log (AllReduce false true)
      (set_grads (all_reduce (comm t) false true (grads s)) s));;
  modify (fun s =>
    log (WeightDecay (weight_decay t))
      (set_grads (solver_weight_decay (weight_decay t) (params s) (grads s))
                 s));;
  modify (fun s =>
    let '(st, p) :=
      solver_update (learning_rate s) (solver_states s) (params s) (grads s) in
    log Update (set_params p (set_solver_states st s)));;
  mret epoch_loss.

(** [train(epoch)] *)
Definition train (t : trainer) (epoch : Z) : M state unit :=
  n ← floordiv (iterations_per_epoch t) (n_procs (comm t));
  let epoch_loss := IntZero in
  (if bool_decide (epoch ∈ learning_rate_decay_epochs t) then
     modify (fun s =>
       let lr := (learning_rate s * learning_rate_decay_factor t)%Q in
       log (SetLearningRate lr) (set_lr lr s))
   else mret tt);;
  epoch_loss ← for_fold (train_batch t epoch) epoch_loss (range n);
  avg_epoch_loss ← accum_div epoch_loss (iterations_per_epoch t);
  log_loss epoch avg_epoch_loss true.

(** The body of the loop of [validate]; the locals that outlive the loop
    are [epoch_loss] and [img_recon]. *)
Definition validate_batch (t : trainer) (loc : accum * option (list Q))
    (i : nat) : M state (accum * option (list Q)) :=
  data ← data_next t true;
  let img_var := input_var t data in
  '(loss, _, _, img_recon) ← compute_loss t img_var true;
  modify (log (SetDescription loss));;
  mret (accum_add (fst loc) loss, Some img_recon).

(** [validate(epoch)] *)
Definition validate (t : trainer) (epoch : Z) : M state unit :=
  n ← match val_iterations_per_epoch t with
      | Some n => mret n
      | None => raise AttributeError
      end;
  loc ← for_fold (validate_batch t) (IntZero, None) (range n);
  avg_epoch_loss ← accum_div (fst loc) (iterations_per_epoch t);
  log_loss epoch avg_epoch_loss false;;
  match snd loc with
  | Some img_recon => log_image t epoch img_recon false
  | None => raise UnboundLocalError
  end.

(** *** Vocabulary for the statements about the trainer *)

(** The calls of one iteration of the loop of [train] whose batch loss
    is [l]. *)
Definition batch_calls (t : trainer) (l : npfloat) : list call :=
  [DataNext false; ModelForward false; SetDescription l; SetParameters;
   ZeroGrad; Backward; AllReduce false true; WeightDecay (weight_decay t);
   Update].

(** The calls of one iteration of the loop of [validate] whose batch loss
    is [l]. *)
Definition val_batch_calls (l : npfloat) : list call :=
  [DataNext true; ModelForward true; SetDescription l].

(** The batch losses shown on the progress bar, in order. *)
Definition displayed (l : list call) : list npfloat :=
  flat_map (fun c => match c with SetDescription v => [v] | _ => [] end) l.

(** The loss of the batch that the next iteration fetches in state [s]. *)
Definition batch_loss (t : trainer) (validation : bool) (s : state)
  : npfloat :=
  let x :=
    input_var t
      (batches (if validation then val_data_loader t else data_loader t)
               (if validation then val_loader_pos s else loader_pos s)) in
  let '(vq_loss, img_recon, _) := model (params s) x validation in
  np_add (np_div (mean_squared_error img_recon x) (data_variance t)) vq_loss.

(** The value of [acc / d] when [d] is not zero. *)
Definition accum_quot (a : accum) (d : Z) : npfloat :=
  match a with
  | IntZero => Finite 0
  | Arr v => np_div v (np_int d)
  end.

(** The arithmetic mean of a list of batch losses. *)
Definition mean_loss (losses : list npfloat) : npfloat :=
  np_div (fold_left np_add losses (Finite 0))
         (np_int (Z.of_nat (length losses))).

(** The parameters, the gradient buffers and the solver are the same in
    both states. *)
Definition same_model (s s' : state) : Prop :=
  params s' = params s /\ grads s' = grads s
  /\ solver_states s' = solver_states s
  /\ learning_rate s' = learning_rate s.

(** How many calls of a kind a log holds. *)
Definition count (f : call -> bool) (l : list call) : nat :=
  length (List.filter f l).

(** The input variable and the reconstruction of the batch that the next
    iteration fetches in state [s]. *)
Definition next_input (t : trainer) (validation : bool) (s : state)
  : list Q :=
  input_var t
    (batches (if validation then val_data_loader t else data_loader t)
             (if validation then val_loader_pos s else loader_pos s)).

Definition reconstruction (t : trainer) (validation : bool) (s : state)
  : list Q :=
  snd (fst (model (params s) (next_input t validation s) validation)).

(** The path of the reconstruction image of an epoch. *)
Definition recon_file (dir : string) (epoch : Z) : string :=
  path_join dir ("epoch_" +:+ str epoch +:+ ".png").

(** The directory of the checkpoint of an epoch. *)
Definition checkpoint_dir (path : string) (epoch : Z) : string :=
  path_join path ("epoch_" +:+ str epoch).

End Trainer.
End VQVAE.

(** ** The Tacotron2 trainer ([tacotron2/train.py]) *)

Module Tacotron2.
Import Py.

(** Handles on the computation graph built by [update_graph].  The name of
    an input variable stands for the identity of the Python object. *)
Inductive node :=
| NnVariable (name : string) (shape : list Z)
| ModelOutput (i : nat) (training : bool) (x_txt x_mel : node)
| MeanSquaredError (x t : node)
| MeanSigmoidCrossEntropy (x t : node)
| Plus (a b : node)
| Persistent (n : node).

(** A pathlib path, as the components joined by [/]. *)
Definition path := list string.

(** The figure handed to [save_image]: [data.reshape((-1, n)).T] when
    [columns = Some n], [data.T] otherwise. *)
Record figure := {
  columns : option Z;
  pixels : list Q
}.

Inductive call :=
| ModelCall (training : bool)
| ZeroGrad
| StreamSynchronize
| DataNext (key : string)
| Forward (n : node) (clear_no_need_grad clear_buffer : bool)
| Backward (n : node)
| MonitorUpdate (name : string) (value : npfloat) (batch_size : Z)
| AllReduceGrads (division inplace : bool)
| AddStreamEvent
| Update
| AllReduceLoss (division inplace : bool)
| MonitorInfo (valid_loss : npfloat)
| Mkdir (p : path)
| SaveImage (data : figure) (p : path) (label : string * string)
    (title : string) (figsize : Z * Z)
| SaveParameters (p : path)
| LossZero.

Definition is_grad_reduce (c : call) : bool :=
  match c with AllReduceGrads _ _ => true | _ => false end.
Definition is_update (c : call) : bool :=
  match c with Update => true | _ => false end.
Definition is_backward (c : call) : bool :=
  match c with Backward _ => true | _ => false end.

(** The data bound to the input variables of one graph, by variable. *)
Definition feeds := gmap string (list Q).

(** The nnabla objects behind the trainer; a graph is evaluated on the data
    last bound to its input variables. *)
Class Framework := {
  Params : Type;
  Grads : Type;
  OptimizerStates : Type;
  (** [n.d] of a scalar node after a forward pass *)
  scalar_value : Params -> node -> feeds -> npfloat;
  (** [n.d[0]] of a tensor node after a forward pass *)
  first_sample : Params -> node -> feeds -> list Q;
  (** [optimizer.zero_grad()] *)
  zero_grad : Grads -> Grads;
  (** [n.backward(clear_buffer=True)]: accumulates into the buffers *)
  node_backward : Params -> node -> feeds -> Grads -> Grads;
  (** [optimizer.update()] *)
  optimizer_update :
    OptimizerStates -> Params -> Grads -> OptimizerStates * Params
}.

Section Trainer.
Context `{FW : Framework}.

(** [hparams.comm]: the collective is applied to the gradient buffers in
    [train_on_batch] and to the loss accumulator at the end of an epoch. *)
Record communicator := {
  n_procs : Z;
  rank : Z;
  all_reduce_grads : bool -> bool -> Grads -> Grads;
  all_reduce_loss : bool -> bool -> npfloat -> npfloat
}.

Record hparams := {
  batch_size : Z;
  text_len : Z;
  mel_len : Z;
  n_mels : Z;
  r : Z;
  epochs_per_checkpoint : Z;
  output_path : string;
  comm : communicator
}.

(** A data iterator: its [size] and the batch of the i-th [next()], the
    arrays for [x_mel], [x_txt] and [x_gat] in this order. *)
Record loader := {
  size : Z;
  batches : nat -> list Q * list Q * list Q
}.

(** The trainer's fixed attributes: [hparams] and [dataloader]. *)
Record trainer := {
  hp : hparams;
  dataloader_train : loader;
  dataloader_valid : loader
}.

Record state := {
  model_training : bool;
  placeholder : gmap string (gmap string node);
  inputs : gmap string feeds;
  params : Params;
  grads : Grads;
  optimizer_states : OptimizerStates;
  loss : npfloat;
  cur_epoch : Z;
  train_pos : nat;
  valid_pos : nat;
  calls : list call
}.

Definition log (c : call) (s : state) : state :=
  {| model_training := model_training s; placeholder := placeholder s;
     inputs := inputs s; params := params s; grads := grads s;
     optimizer_states := optimizer_states s; loss := loss s;
     cur_epoch := cur_epoch s; train_pos := train_pos s;
     valid_pos := valid_pos s; calls := calls s ++ [c] |}.

Definition set_model_training (b : bool) (s : state) : state :=
  {| model_training := b; placeholder := placeholder s;
     inputs := inputs s; params := params s; grads := grads s;
     optimizer_states := optimizer_states s; loss := loss s;
     cur_epoch := cur_epoch s; train_pos := train_pos s;
     valid_pos := valid_pos s; calls := calls s |}.

Definition set_placeholder (key : string) (handles : gmap string node)
    (s : state) : state :=
  {| model_training := model_training s;
     placeholder := <[ key := handles ]> (placeholder s);
     inputs := delete key (inputs s); params := params s; grads := grads s;
     optimizer_states := optimizer_states s; loss := loss s;
     cur_epoch := cur_epoch s; train_pos := train_pos s;
     valid_pos := valid_pos s; calls := calls s |}.

Definition inputs_of (key : string) (s : state) : feeds :=
  default ∅ (inputs s !! key).

Definition set_input (key x : string) (d : list Q) (s : state) : state :=
  {| model_training := model_training s; placeholder := placeholder s;
     inputs := <[ key := <[ x := d ]> (inputs_of key s) ]> (inputs s);
     params := params s;
     grads := grads s;
     optimizer_states := optimizer_states s; loss := loss s;
     cur_epoch := cur_epoch s; train_pos := train_pos s;
     valid_pos := valid_pos s; calls := calls s |}.

Definition set_params (p : Params) (s : state) : state :=
  {| model_training := model_training s; placeholder := placeholder s;
     inputs := inputs s; params := p; grads := grads s;
     optimizer_states := optimizer_states s; loss := loss s;
     cur_epoch := cur_epoch s; train_pos := train_pos s;
     valid_pos := valid_pos s; calls := calls s |}.

Definition set_grads (g : Grads) (s : state) : state :=
  {| model_training := model_training s; placeholder := placeholder s;
     inputs := inputs s; params := params s; grads := g;
     optimizer_states := optimizer_states s; loss := loss s;
     cur_epoch := cur_epoch s; train_pos := train_pos s;
     valid_pos := valid_pos s; calls := calls s |}.

Definition set_optimizer_states (st : OptimizerStates) (s : state) : state :=
  {| model_training := model_training s; placeholder := placeholder s;
     inputs := inputs s; params := params s; grads := grads s;
     optimizer_states := st; loss := loss s;
     cur_epoch := cur_epoch s; train_pos := train_pos s;
     valid_pos := valid_pos s; calls := calls s |}.

Definition set_loss (l : npfloat) (s : state) : state :=
  {| model_training := model_training s; placeholder := placeholder s;
     inputs := inputs s; params := params s; grads := grads s;
     optimizer_states := optimizer_states s; loss := l;
     cur_epoch := cur_epoch s; train_pos := train_pos s;
     valid_pos := valid_pos s; calls := calls s |}.

Definition set_pos (valid : bool) (n : nat) (s : state) : state :=
  {| model_training := model_training s; placeholder := placeholder s;
     inputs := inputs s; params := params s; grads := grads s;
     optimizer_states := optimizer_states s; loss := loss s;
     cur_epoch := cur_epoch s;
     train_pos := if valid then train_pos s else n;
     valid_pos := if valid then n else valid_pos s; calls := calls s |}.

(** [d[k]] on a dictionary *)
Definition getitem {V} (d : gmap string V) (k : string) : M state V :=
  match d !! k with
  | Some v => mret v
  | None => raise KeyError
  end.

(** The body of [update_graph] after the mode is set: the input
    variables, the outputs of the model, the losses, and the dictionary
    of their handles in the order of the dictionary display. *)
Definition build_graph (hp : hparams) (training : bool)
  : list (string * node) :=
  let x_txt := NnVariable "x_txt" [batch_size hp; text_len hp] in
  let x_mel :=
    NnVariable "x_mel" [batch_size hp; mel_len hp; (n_mels hp * r hp)%Z] in
  let x_gat := NnVariable "x_gat" [batch_size hp; mel_len hp] in
  let o_mel := Persistent (ModelOutput 0 training x_txt x_mel) in
  let o_mel_p := Persistent (ModelOutput 1 training x_txt x_mel) in
  let o_gat := Persistent (ModelOutput 2 training x_txt x_mel) in
  let o_att := Persistent (ModelOutput 3 training x_txt x_mel) in
  let criteria x t := MeanSquaredError x t in
  let l_mel :=
    Persistent (Plus (criteria o_mel x_mel) (criteria o_mel_p x_mel)) in
  let l_gat := Persistent (MeanSigmoidCrossEntropy o_gat x_gat) in
  let l_net := Persistent (Plus l_mel l_gat) in
  [("x_mel", x_mel); ("x_gat", x_gat); ("x_txt", x_txt);
   ("o_mel", o_mel); ("o_mel_p", o_mel_p); ("o_gat", o_gat);
   ("o_att", o_att);
   ("l_mel", l_mel); ("l_gat", l_gat); ("l_net", l_net)].

(** [update_graph(key)] *)
Definition update_graph (t : trainer) (key : string) : M state unit :=
  if negb (String.eqb key "train" || String.eqb key "valid") then
    raise AssertionError
  else
    let training := negb (String.eqb key "valid") in
    modify (set_model_training training);;
    modify (log (ModelCall training));;
    modify (set_placeholder key (list_to_map (build_graph (hp t) training))).

(** [p['x_mel'].d, p['x_txt'].d, p['x_gat'].d = dl.next()] for the graph
    of [key] *)
Definition feed (t : trainer) (key : string) (valid : bool)
    (p : gmap string node) : M state unit :=
  i ← gets (if valid then valid_pos else train_pos);
  modify (fun s => log (DataNext key) (set_pos valid (S i) s));;
  let '(mel, txt, gat) :=
    batches (if valid then dataloader_valid t else dataloader_train t) i in
  getitem p "x_mel";;
  modify (set_input key "x_mel" mel);;
  getitem p "x_txt";;
  modify (set_input key "x_txt" txt);;
  getitem p "x_gat";;
  modify (set_input key "x_gat" gat).

(** [self.monitor.update(name, p[k].d.copy(), batch_size)] *)
Definition monitor_update (key name k : string) (p : gmap string node)
    (batch_size : Z) : M state unit :=
  n ← getitem p k;
  modify (fun s =>
    log (MonitorUpdate name (scalar_value (params s) n (inputs_of key s))
                       batch_size) s).

(** [train_on_batch()] *)
Definition train_on_batch (t : trainer) : M state unit :=
  let batch_size := batch_size (hp t) in
  ph ← gets placeholder;
  p ← getitem ph "train";
  modify (fun s => log ZeroGrad (set_grads (zero_grad (grads s)) s));;
  (if (1 <? n_procs (comm (hp t)))%Z then modify (log StreamSynchronize)
   else mret tt);;
  feed t "train" false p;;
  l_net ← getitem p "l_net";
  modify (log (Forward l_net true false));;
  l_net ← getitem p "l_net";
  modify (fun s =>
    log (Backward l_net)
      (set_grads
         (node_backward (params s) l_net (inputs_of "train" s) (grads s)) s));;
  monitor_update "train" "train/l_mel" "l_mel" p batch_size;;
  monitor_update "train" "train/l_gat" "l_gat" p batch_size;;
  monitor_update "train" "train/l_net" "l_net" p batch_size;;
  (if (1 <? n_procs (comm (hp t)))%Z then
     modify (fun s =>
       log (AllReduceGrads true false)
         (set_grads (all_reduce_grads (comm (hp t)) true false (grads s)) s));;
     modify (log AddStreamEvent)
   else mret tt);;
  modify (fun s =>
    let '(st, p) :=
      optimizer_update (optimizer_states s) (params s) (grads s) in
    log Update (set_params p (set_optimizer_states st s))).

(** [valid_on_batch()] *)
Definition valid_on_batch (t : trainer) : M state unit :=
  let batch_size := batch_size (hp t) in
  ph ← gets placeholder;
  p ← getitem ph "valid";
  (if (1 <? n_procs (comm (hp t)))%Z then modify (log StreamSynchronize)
   else mret tt);;
  feed t "valid" true p;;
  l_net ← getitem p "l_net";
  modify (log (Forward l_net false true));;
  l_net ← getitem p "l_net";
  modify (fun s =>
    set_loss
      (np_add (loss s)
         (np_mul (scalar_value (params s) l_net (inputs_of "valid" s))
                 (np_int batch_size))) s);;
  monitor_update "valid" "valid/l_mel" "l_mel" p batch_size;;
  monitor_update "valid" "valid/l_gat" "l_gat" p batch_size;;
  monitor_update "valid" "valid/l_net" "l_net" p batch_size.

(** The first lines of [callback_on_epoch_end]: the accumulated loss is
    reduced across the workers, then divided by the size of the
    validation set. *)
Definition normalise_loss (t : trainer) : M state unit :=
  (if (1 <? n_procs (comm (hp t)))%Z then
     modify (fun s =>
       log (AllReduceLoss true false)
         (set_loss (all_reduce_loss (comm (hp t)) true false (loss s)) s))
   else mret tt);;
  modify (fun s =>
    set_loss (np_div (loss s) (np_int (size (dataloader_valid t)))) s).

(** The body of [for k in ('o_att', 'o_mel')] in [callback_on_epoch_end] *)
Definition save_output (t : trainer) (p : gmap string node) (dir : path)
    (k : string) : M state unit :=
  n ← getitem p k;
  modify (log (Forward n false true));;
  n ← getitem p k;
  data ← gets (fun s => first_sample (params s) n (inputs_of "train" s));
  let is_mel := String.eqb k "o_mel" in
  let is_att := String.eqb k "o_att" in
  title ← getitem
    (list_to_map [("o_att", "Attention"); ("o_mel", "Mel spectrogram")]) k;
  modify (log (SaveImage
    {| columns := if is_mel then Some (n_mels (hp t)) else None;
       pixels := data |}
    (dir ++ [k +:+ ".png"])
    (if is_att then ("Decoder timestep", "Encoder timestep")
     else ("Frame", "Channel"))
    title
    (if is_att then (6, 5)%Z else (6, 3)%Z))).

(** The report and the checkpoint written by the worker of rank 0 *)
Definition report_and_checkpoint (t : trainer) : M state unit :=
  if (rank (comm (hp t)) =? 0)%Z then
    ph ← gets placeholder;
    p ← getitem ph "train";
    modify (fun s => log (MonitorInfo (loss s)) s);;
    e ← gets cur_epoch;
    (if (epochs_per_checkpoint (hp t) =? 0)%Z then raise ZeroDivisionError
     else mret tt);;
    if (e mod epochs_per_checkpoint (hp t) =? 0)%Z then
      let dir := [output_path (hp t); "output"; "epoch_" +:+ str e] in
      modify (log (Mkdir dir));;
      save_output t p dir "o_att";;
      save_output t p dir "o_mel";;
      modify (log (SaveParameters (dir ++ ["model_" +:+ str e +:+ ".h5"])))
    else mret tt
  else mret tt.

(** [callback_on_epoch_end()] *)
Definition callback_on_epoch_end (t : trainer) : M state unit :=
  normalise_loss t;;
  report_and_checkpoint t;;
  modify (fun s => log LossZero (set_loss (Finite 0) s)).

(** *** Vocabulary for the statements about the trainer *)

(** How many calls of a kind a log holds. *)
Definition count (f : call -> bool) (l : list call) : nat :=
  length (List.filter f l).

(** The names under which [update_graph] files the handles of a graph. *)
Definition handle_names : gset string :=
  list_to_set ["x_txt"; "x_mel"; "x_gat"; "o_mel"; "o_mel_p"; "o_gat";
               "o_att"; "l_mel"; "l_gat"; "l_net"].

(** The handles that the batch methods and the epoch callback look up. *)
Definition used_handles : list string :=
  ["x_mel"; "x_txt"; "x_gat"; "l_net"; "l_mel"; "l_gat"; "o_att"; "o_mel"].

(** The graph of [key] has been built: its placeholder holds the handles
    that the methods look up. *)
Definition graph_ready (key : string) (s : state) : Prop :=
  exists p, placeholder s !! key = Some p
            /\ forall k, In k used_handles -> is_Some (p !! k).

(** Every gradient reduction of the log sums: none divides by the number
    of workers. *)
Definition sum_reductions_only (l : list call) : Prop :=
  forall division inplace,
    In (AllReduceGrads division inplace) l -> division = false.

(** A call that touches neither the gradients nor the parameters. *)
Definition forward_only (c : call) : bool :=
  negb (is_backward c) && negb (is_grad_reduce c) && negb (is_update c).

(** From [s] to [s'] the parameters, the gradient buffers and the
    optimizer are untouched, and the calls made on the way are neither a
    backward pass, nor a gradient reduction, nor an update. *)
Definition quiet (s s' : state) : Prop :=
  params s' = params s /\ grads s' = grads s
  /\ optimizer_states s' = optimizer_states s
  /\ exists new, calls s' = calls s ++ new
                 /\ forallb forward_only new = true.

(** Modelled from the spec: the epoch loop of the base class [Trainer]
    ([neu.tts.trainer]) is not part of the sources.  Following the
    validation step of the spec, a validation pass is a number of
    [valid_on_batch] calls followed by [callback_on_epoch_end]. *)
Definition validation_pass (t : trainer) (n : nat) : M state unit :=
  for_fold (fun _ _ => valid_on_batch t) tt (seq 0 n);;
  callback_on_epoch_end t.

Definition is_save_parameters (c : call) : bool :=
  match c with SaveParameters _ => true | _ => false end.
Definition is_save_image (c : call) : bool :=
  match c with SaveImage _ _ _ _ _ => true | _ => false end.
Definition is_loss_reduce (c : call) : bool :=
  match c with AllReduceLoss _ _ => true | _ => false end.
Definition is_forward (c : call) : bool :=
  match c with Forward _ _ _ => true | _ => false end.

(** The directory of the outputs of an epoch. *)
Definition output_dir (h : hparams) (epoch : Z) : path :=
  [output_path h; "output"; "epoch_" +:+ str epoch].

End Trainer.
End Tacotron2.

(** ** Concrete runs

    Small instances of the framework on which the drivers are run: the
    parameters, the gradient buffers and the solver states are single
    numbers. *)

Module Runs.
Import Py.

(** The VQ-VAE model returns its input as reconstruction and the sum of
    its input as vq_loss; the solver counts its updates. *)
#[export] Instance vq_framework : VQVAE.Framework := {|
  VQVAE.Params := Q;
  VQVAE.Grads := Q;
  VQVAE.SolverStates := nat;
  VQVAE.model := fun _ img _ => (Finite (np_sum img), img, Finite 0);
  VQVAE.zero_grad := fun _ => 0%Q;
  VQVAE.loss_backward := fun _ _ _ g => (g + 1)%Q;
  VQVAE.solver_weight_decay := fun rate p g => (g + rate * p)%Q;
  VQVAE.solver_update := fun lr st p g => (S st, (p - lr * g)%Q)
|}.

(** A data iterator whose i-th batch holds [i + 1] pixels of value 255:
    after [convert_to_var] each pixel is 1, so the i-th batch loss of the
    model above is [i + 1]. *)
Definition vq_loader (size : Z) : VQVAE.loader :=
  {| VQVAE.size := size;
     VQVAE.batch_size := 10;
     VQVAE.images := [0; 255]%Q;
     VQVAE.batches := fun i => repeat 255%Q (S i) |}.

Definition vq_config : VQVAE.config :=
  {| VQVAE.train_weight_decay := 0;
     VQVAE.train_learning_rate_decay_epochs := [2; 4]%Z;
     VQVAE.train_learning_rate_decay_factor := 1 # 2;
     VQVAE.monitor_path := "tmp.monitor";
     VQVAE.monitor_train_recon := "train";
     VQVAE.monitor_val_recon := "val";
     VQVAE.dataset_name_cfg := "cifar10" |}.

(** A communicator of [n] workers whose collective leaves the local
    buffers as they are. *)
Definition vq_comm (n : Z) : VQVAE.communicator :=
  {| VQVAE.n_procs := n;
     VQVAE.rank := 0;
     VQVAE.all_reduce := fun _ _ g => g |}.

Definition vq_state : VQVAE.state :=
  {| VQVAE.params := 1%Q;
     VQVAE.grads := 0%Q;
     VQVAE.learning_rate := 1;
     VQVAE.solver_states := 0%nat;
     VQVAE.loader_pos := 0;
     VQVAE.val_loader_pos := 0;
     VQVAE.monitor_train_loss := [];
     VQVAE.monitor_val_loss := [];
     VQVAE.dirs := ∅;
     VQVAE.files := ∅;
     VQVAE.calls := [] |}.

(** [VQVAEtrainer(...)] on 100 training images and 20 validation images
    in batches of 10, with [n] workers. *)
Definition vq_init (n : Z) : outcome VQVAE.state VQVAE.trainer :=
  VQVAE.init (vq_loader 100) (vq_loader 20) vq_config (vq_comm n) vq_state.

(** The trainer with [n] workers, [ipe] training iterations and [vipe]
    validation iterations per epoch, and the state it is built in. *)
Definition vq_trainer (n ipe vipe : Z) : VQVAE.trainer :=
  {| VQVAE.data_loader := vq_loader 100;
     VQVAE.val_data_loader := vq_loader 20;
     VQVAE.comm := vq_comm n;
     VQVAE.iterations_per_epoch := ipe;
     VQVAE.weight_decay := 0;
     VQVAE.learning_rate_decay_epochs := [2; 4]%Z;
     VQVAE.learning_rate_decay_factor := 1 # 2;
     VQVAE.train_recon_path := "tmp.monitor/train";
     VQVAE.val_recon_path := "tmp.monitor/val";
     VQVAE.dataset_name := "cifar10";
     VQVAE.val_iterations_per_epoch := Some vipe;
     VQVAE.data_variance := np_var (map (fun x => x / 255)%Q [0; 255]%Q) |}.

Definition vq_ready : VQVAE.state :=
  VQVAE.add_dir "tmp.monitor/val" (VQVAE.add_dir "tmp.monitor/train" vq_state).

(** The Tacotron2 graph evaluates every scalar node to 1; a backward pass
    adds 1 to the gradient buffer; the optimizer counts its updates. *)
#[export] Instance taco_framework : Tacotron2.Framework := {|
  Tacotron2.Params := Q;
  Tacotron2.Grads := Q;
  Tacotron2.OptimizerStates := nat;
  Tacotron2.scalar_value := fun _ _ _ => Finite 1;
  Tacotron2.first_sample := fun _ _ _ => [];
  Tacotron2.zero_grad := fun _ => 0%Q;
  Tacotron2.node_backward := fun _ _ _ g => (g + 1)%Q;
  Tacotron2.optimizer_update := fun st p g => (S st, (p - g)%Q)
|}.

(** A communicator of [n] workers that all hold the same values: the sum
    is [n] times the local value, the average is the local value. *)
Definition taco_comm (n : Z) : Tacotron2.communicator :=
  {| Tacotron2.n_procs := n;
     Tacotron2.rank := 0;
     Tacotron2.all_reduce_grads :=
       fun division _ g => if division then g else (inject_Z n * g)%Q;
     Tacotron2.all_reduce_loss :=
       fun division _ l =>
         if division then l else np_mul (np_int n) l |}.

Definition taco_loader : Tacotron2.loader :=
  {| Tacotron2.size := 4;
     Tacotron2.batches := fun _ => ([1], [2], [3])%Q |}.

Definition taco_trainer (n : Z) : Tacotron2.trainer :=
  {| Tacotron2.hp :=
       {| Tacotron2.batch_size := 2;
          Tacotron2.text_len := 3;
          Tacotron2.mel_len := 4;
          Tacotron2.n_mels := 5;
          Tacotron2.r := 1;
          Tacotron2.epochs_per_checkpoint := 1;
          Tacotron2.output_path := "out";
          Tacotron2.comm := taco_comm n |};
     Tacotron2.dataloader_train := taco_loader;
     Tacotron2.dataloader_valid := taco_loader |}.

Definition taco_state : Tacotron2.state :=
  {| Tacotron2.model_training := false;
     Tacotron2.placeholder := ∅;
     Tacotron2.inputs := ∅;
     Tacotron2.params := 1%Q;
     Tacotron2.grads := 0%Q;
     Tacotron2.optimizer_states := 0%nat;
     Tacotron2.loss := Finite 8;
     Tacotron2.cur_epoch := 1;
     Tacotron2.train_pos := 0;
     Tacotron2.valid_pos := 0;
     Tacotron2.calls := [] |}.

(** The state after [update_graph('train')] and [update_graph('valid')]. *)
Definition taco_built (n : Z) : Tacotron2.state :=
  final (Tacotron2.update_graph (taco_trainer n) "valid"
           (final (Tacotron2.update_graph (taco_trainer n) "train"
                     taco_state))).

(** The trainer of [taco_trainer] on the worker of rank [k]. *)
Definition taco_worker (n k : Z) : Tacotron2.trainer :=
  {| Tacotron2.hp :=
       {| Tacotron2.batch_size := 2;
          Tacotron2.text_len := 3;
          Tacotron2.mel_len := 4;
          Tacotron2.n_mels := 5;
          Tacotron2.r := 1;
          Tacotron2.epochs_per_checkpoint := 1;
          Tacotron2.output_path := "out";
          Tacotron2.comm :=
            {| Tacotron2.n_procs := n;
               Tacotron2.rank := k;
               Tacotron2.all_reduce_grads :=
                 Tacotron2.all_reduce_grads (taco_comm n);
               Tacotron2.all_reduce_loss :=
                 Tacotron2.all_reduce_loss (taco_comm n) |} |};
     Tacotron2.dataloader_train := taco_loader;
     Tacotron2.dataloader_valid := taco_loader |}.

(** A data iterator like [vq_loader] with a chosen batch size. *)
Definition vq_loader_sized (size batch_size : Z) : VQVAE.loader :=
  {| VQVAE.size := size;
     VQVAE.batch_size := batch_size;
     VQVAE.images := [0; 255]%Q;
     VQVAE.batches := fun i => repeat 255%Q (S i) |}.

(** The configuration of [vq_config] for the ImageNet dataset. *)
Definition vq_config_imagenet : VQVAE.config :=
  {| VQVAE.train_weight_decay := 0;
     VQVAE.train_learning_rate_decay_epochs := [2; 4]%Z;
     VQVAE.train_learning_rate_decay_factor := 1 # 2;
     VQVAE.monitor_path := "tmp.monitor";
     VQVAE.monitor_train_recon := "train";
     VQVAE.monitor_val_recon := "val";
     VQVAE.dataset_name_cfg := "imagenet" |}.

End Runs.

(** ** Facts about the state-and-exception monad *)

Module PyFacts.
Import Py.

Section Monad.
Context {St : Type}.

Lemma bind_ret {A B} (a : A) (k : A -> M St B) s : bind (ret a) k s = k a s.
Proof. reflexivity. Qed.

Lemma bind_gets {A B} (f : St -> A) (k : A -> M St B) s :
  bind (gets f) k s = k (f s) s.
Proof. reflexivity. Qed.

Lemma bind_modify {B} (f : St -> St) (k : unit -> M St B) s :
  bind (modify f) k s = k tt (f s).
Proof. reflexivity. Qed.

Lemma bind_raise {A B} e (k : A -> M St B) s :
  bind (raise e) k s = Exc e s.
Proof. reflexivity. Qed.

Lemma bind_assoc {A B C} (m : M St A) (f : A -> M St B) (g : B -> M St C) s :
  bind (bind m f) g s = bind m (fun a => bind (f a) g) s.
Proof. unfold bind. destruct (m s); reflexivity. Qed.

(** A relation on states that composes holds between the start and the
    end of [bind m k] when it holds across [m] and across [k]. *)
Lemma final_bind {A B} (m : M St A) (k : A -> M St B) s
    (R : St -> St -> Prop) :
  (forall s1 s2 s3, R s1 s2 -> R s2 s3 -> R s1 s3) ->
  R s (final (m s)) ->
  (forall a s', R s' (final (k a s'))) ->
  R s (final (bind m k s)).
Proof.
  intros Ht Hm Hk. unfold bind. destruct (m s) as [a s'|e s'].
  - eapply Ht; [exact Hm|apply Hk].
  - exact Hm.
Qed.

Lemma final_for_fold {A X} (body : A -> X -> M St A)
    (R : St -> St -> Prop) xs :
  (forall s, R s s) ->
  (forall s1 s2 s3, R s1 s2 -> R s2 s3 -> R s1 s3) ->
  (forall a x s, R s (final (body a x s))) ->
  forall a s, R s (final (for_fold body a xs s)).
Proof.
  intros Hr Ht Hb. induction xs as [|x xs IH]; intros a s; [apply Hr|].
  simpl for_fold. apply final_bind; auto.
Qed.

End Monad.
End PyFacts.

(** ** Facts about the VQ-VAE trainer *)

Module VQVAEFacts.
Import Py VQVAE.

Ltac msimpl :=
  cbv beta iota zeta delta
    [mbind mret M_bind M_ret bind ret modify gets raise final].

Ltac split_all := repeat match goal with |- _ /\ _ => split end.

(** *** Input normalisation *)

Lemma half_div (y : Q) : (y / (1#2) == 2 * y)%Q.
Proof. field. Qed.

Lemma byte_div (y : Q) : (y / 255 == (1#255) * y)%Q.
Proof. field. Qed.

Lemma np_all_lt_1_true img :
  np_all_lt_1 img = true <-> Forall (fun x => x < 1)%Q img.
Proof.
  unfold np_all_lt_1. rewrite forallb_forall, Forall_forall.
  split; intros H x Hx.
  - apply list_elem_of_In in Hx. specialize (H x Hx).
    apply negb_true_iff in H. apply Qnot_le_lt. intros Hle.
    apply Qle_bool_iff in Hle. rewrite H in Hle. discriminate.
  - apply list_elem_of_In in Hx. specialize (H x Hx).
    apply negb_true_iff. destruct (Qle_bool 1 x) eqn:E; [|reflexivity].
    apply Qle_bool_iff in E. exfalso. eapply Qlt_not_le; eassumption.
Qed.

Lemma convert_to_var_unit img :
  Forall (fun x => x < 1)%Q img ->
  convert_to_var img = map (fun x => (x - (1#2)) / (1#2))%Q img.
Proof.
  intros H. apply np_all_lt_1_true in H. unfold convert_to_var.
  now rewrite H.
Qed.

Lemma convert_to_var_bytes img :
  Exists (fun x => 1 <= x)%Q img ->
  convert_to_var img = map (fun x => (x / 255 - (1#2)) / (1#2))%Q img.
Proof.
  intros H. unfold convert_to_var.
  destruct (np_all_lt_1 img) eqn:E.
  - apply np_all_lt_1_true in E. exfalso.
    apply Exists_exists in H as (x & Hx & Hle).
    rewrite Forall_forall in E. specialize (E x Hx).
    eapply Qlt_not_le; eassumption.
  - simpl. now rewrite map_map.
Qed.

(** *** Paths of the checkpoint files *)

Definition no_sep (a : string) : Prop :=
  forall c, In c (list_ascii_of_string a) -> c <> "/"%char.

Lemma endswith_sep_no_sep a : no_sep a -> endswith_sep a = false.
Proof.
  induction a as [|c a IH]; intros H; [reflexivity|].
  simpl. destruct a as [|c' a'].
  - apply Ascii.eqb_neq. apply H. simpl. auto.
  - apply IH. intros x Hx. apply H. simpl. simpl in Hx. tauto.
Qed.

Lemma append_nil b : EmptyString +:+ b = b.
Proof. reflexivity. Qed.

Lemma append_cons c a b : String c a +:+ b = String c (a +:+ b).
Proof. reflexivity. Qed.

Lemma endswith_sep_app a b :
  b <> EmptyString -> endswith_sep (a +:+ b) = endswith_sep b.
Proof.
  intros Hb. induction a as [|c a IH]; [reflexivity|].
  rewrite append_cons. simpl. rewrite IH.
  destruct (a +:+ b) eqn:E; [|reflexivity].
  destruct a; [rewrite append_nil in E; congruence|].
  rewrite append_cons in E. discriminate.
Qed.

Lemma no_sep_uint d : no_sep (NilEmpty.string_of_uint d).
Proof.
  induction d; intros c Hc; simpl in Hc;
    try contradiction; destruct Hc as [<-|Hc];
    try discriminate; now apply IHd.
Qed.

Lemma no_sep_str n : no_sep (str n).
Proof.
  unfold str, NilZero.string_of_int, NilZero.string_of_uint.
  destruct (Z.to_int n) as [d|d]; destruct d;
    intros c Hc; simpl in Hc;
    repeat match goal with
    | H : _ \/ _ |- _ => destruct H as [<-|H]; [discriminate|]
    | H : False |- _ => contradiction
    end; eapply no_sep_uint; eassumption.
Qed.

(** The directory of a checkpoint never ends with a separator. *)
Lemma epoch_dir_no_trailing_sep base epoch :
  endswith_sep (path_join base ("epoch_" +:+ str epoch)) = false.
Proof.
  assert (H : endswith_sep ("epoch_" +:+ str epoch) = false).
  { apply endswith_sep_no_sep. intros c Hc. simpl in Hc.
    repeat match goal with
    | H : _ \/ _ |- _ => destruct H as [<-|H]; [discriminate|]
    end. eapply no_sep_str; eassumption. }
  unfold path_join. simpl startswith_sep. cbv iota.
  destruct (String.eqb base EmptyString || endswith_sep base).
  - rewrite endswith_sep_app; [exact H|discriminate].
  - rewrite endswith_sep_app; [|discriminate].
    rewrite endswith_sep_app; [exact H|discriminate].
Qed.

(** A file of a checkpoint directory is that directory, a separator and
    the file name. *)
Lemma checkpoint_file_path base epoch name :
  startswith_sep name = false ->
  path_join (path_join base ("epoch_" +:+ str epoch)) name
  = path_join base ("epoch_" +:+ str epoch) +:+ "/" +:+ name.
Proof.
  intros Hn. unfold path_join at 1. rewrite Hn.
  rewrite epoch_dir_no_trailing_sep.
  destruct (String.eqb _ EmptyString) eqn:E; [|reflexivity].
  apply String.eqb_eq in E. exfalso. revert E.
  unfold path_join. simpl startswith_sep. cbv iota.
  destruct (String.eqb base EmptyString || endswith_sep base);
    destruct base; simpl; discriminate.
Qed.

Lemma append_inj_r a b c : a +:+ b = a +:+ c -> b = c.
Proof. induction a; simpl; intros H; [exact H|]. injection H. auto. Qed.

Section Facts.
Context `{FW : Framework}.

Lemma count_app f (l1 l2 : list call) :
  count f (l1 ++ l2) = (count f l1 + count f l2)%nat.
Proof. unfold count. now rewrite List.filter_app, length_app. Qed.

Lemma count_rounds f (g : npfloat -> list call) k (ls : list npfloat) :
  (forall l, count f (g l) = k) ->
  count f (concat (map g ls)) = (length ls * k)%nat.
Proof.
  intros Hg. induction ls as [|l ls IH]; simpl; [reflexivity|].
  now rewrite count_app, IH, Hg.
Qed.

Lemma displayed_app (l1 l2 : list call) :
  displayed (l1 ++ l2) = displayed l1 ++ displayed l2.
Proof. unfold displayed. apply flat_map_app. Qed.

Lemma displayed_rounds (g : npfloat -> list call) (ls : list npfloat) :
  (forall l, displayed (g l) = [l]) ->
  displayed (concat (map g ls)) = ls.
Proof.
  intros Hg. induction ls as [|l ls IH]; simpl; [reflexivity|].
  now rewrite displayed_app, IH, Hg.
Qed.

Lemma same_model_refl s : same_model s s.
Proof. repeat split. Qed.

Lemma same_model_trans s1 s2 s3 :
  same_model s1 s2 -> same_model s2 s3 -> same_model s1 s3.
Proof.
  unfold same_model. intros (?&?&?&?) (?&?&?&?). split_all; congruence.
Qed.

(** One iteration of the training loop: it never raises, adds the batch
    loss to the accumulator and makes the calls of [batch_calls]. *)
Lemma train_batch_spec t epoch acc i s :
  exists s',
    train_batch t epoch acc i s = Ret (accum_add acc (batch_loss t false s)) s'
    /\ calls s' = calls s ++ batch_calls t (batch_loss t false s)
    /\ learning_rate s' = learning_rate s
    /\ loader_pos s' = S (loader_pos s)
    /\ monitor_train_loss s' = monitor_train_loss s
    /\ monitor_val_loss s' = monitor_val_loss s.
Proof.
  unfold train_batch, batch_loss, compute_loss, data_next,
    log_image, save_image, batch_calls.
  msimpl. simpl params. simpl loader_pos.
  destruct (model _ _ _) as [[vq rec] perp].
  destruct (i =? 0)%nat; msimpl;
  match goal with |- context [solver_update ?a ?b ?c ?d] =>
    destruct (solver_update a b c d) as [st p] end;
  (eexists; split; [reflexivity|]); simpl; rewrite <- ?app_assoc; simpl; auto.
Qed.

(** The loop of [train] over any list of indices. *)
Lemma train_loop_spec t epoch xs : forall acc s,
  exists losses s',
    for_fold (train_batch t epoch) acc xs s
      = Ret (fold_left accum_add losses acc) s'
    /\ length losses = length xs
    /\ calls s' = calls s ++ concat (map (batch_calls t) losses)
    /\ learning_rate s' = learning_rate s
    /\ monitor_train_loss s' = monitor_train_loss s
    /\ monitor_val_loss s' = monitor_val_loss s.
Proof.
  induction xs as [|x xs IH]; intros acc s.
  - exists [], s. simpl. rewrite app_nil_r. now split_all.
  - destruct (train_batch_spec t epoch acc x s)
      as (s1 & Hrun & Hc & Hlr & _ & Hmt & Hmv).
    destruct (IH (accum_add acc (batch_loss t false s)) s1)
      as (losses & s2 & Hrun2 & Hlen & Hc2 & Hlr2 & Hmt2 & Hmv2).
    exists (batch_loss t false s :: losses), s2.
    simpl for_fold. unfold bind at 1. rewrite Hrun, Hrun2.
    split_all; simpl; try congruence.
    rewrite Hc2, Hc, <- app_assoc. reflexivity.
Qed.

(** What one call of [train] does once the trainer has a worker count and
    an iteration count other than zero: it runs
    [iterations_per_epoch // n_procs] batches and logs their accumulated
    loss divided by [iterations_per_epoch]. *)
Lemma train_spec t epoch s :
  n_procs (comm t) <> 0%Z -> iterations_per_epoch t <> 0%Z ->
  exists losses s',
    train t epoch s = Ret tt s'
    /\ length losses
       = Z.to_nat (iterations_per_epoch t / n_procs (comm t))
    /\ monitor_train_loss s'
       = monitor_train_loss s
         ++ [(epoch, accum_quot (fold_left accum_add losses IntZero)
                                (iterations_per_epoch t))]
    /\ monitor_val_loss s' = monitor_val_loss s
    /\ learning_rate s'
       = (if bool_decide (epoch ∈ learning_rate_decay_epochs t)
          then (learning_rate s * learning_rate_decay_factor t)%Q
          else learning_rate s)
    /\ calls s'
       = calls s
         ++ (if bool_decide (epoch ∈ learning_rate_decay_epochs t)
             then [SetLearningRate
                     (learning_rate s * learning_rate_decay_factor t)%Q]
             else [])
         ++ concat (map (batch_calls t) losses).
Proof.
  intros Hn Hi. unfold train, floordiv.
  apply Z.eqb_neq in Hn. rewrite Hn.
  set (n := (iterations_per_epoch t / n_procs (comm t))%Z).
  set (s0 := if bool_decide (epoch ∈ learning_rate_decay_epochs t)
             then log (SetLearningRate
                         (learning_rate s * learning_rate_decay_factor t)%Q)
                      (set_lr (learning_rate s
                               * learning_rate_decay_factor t)%Q s)
             else s).
  destruct (train_loop_spec t epoch (range n) IntZero s0)
    as (losses & s1 & Hrun & Hlen & Hc & Hlr & Hmt & Hmv).
  exists losses.
  assert (Hdiv : forall st : state,
            accum_div (fold_left accum_add losses IntZero)
                      (iterations_per_epoch t) st
            = Ret (accum_quot (fold_left accum_add losses IntZero)
                              (iterations_per_epoch t)) st).
  { intros st. unfold accum_div, accum_quot.
    destruct (fold_left accum_add losses IntZero); [|reflexivity].
    apply Z.eqb_neq in Hi. now rewrite Hi. }
  unfold range in Hlen. rewrite length_seq in Hlen.
  eexists. split.
  - msimpl. subst s0. unfold log_loss.
    destruct (bool_decide (epoch ∈ learning_rate_decay_epochs t));
      msimpl; rewrite Hrun, Hdiv; msimpl; reflexivity.
  - subst s0.
    destruct (bool_decide (epoch ∈ learning_rate_decay_epochs t));
      simpl in *; split_all; try congruence;
      rewrite Hc; simpl; rewrite <- ?app_assoc; reflexivity.
Qed.

(** After a first [+=] the accumulator is a numpy value. *)
Lemma fold_accum_arr losses a :
  losses <> [] -> exists v, fold_left accum_add losses a = Arr v.
Proof.
  destruct losses as [|l ls]; [congruence|]. intros _. simpl.
  assert (H : exists v, accum_add a l = Arr v) by (destruct a; simpl; eauto).
  destruct H as [v ->]. revert v.
  induction ls as [|x ls IH]; intros v; simpl; eauto.
Qed.

(** One iteration of the validation loop: a fetch and a forward pass. *)
Lemma validate_batch_spec t loc i s :
  exists img_recon s',
    validate_batch t loc i s
      = Ret (accum_add (fst loc) (batch_loss t true s), Some img_recon) s'
    /\ calls s' = calls s ++ val_batch_calls (batch_loss t true s)
    /\ same_model s s'
    /\ monitor_train_loss s' = monitor_train_loss s
    /\ monitor_val_loss s' = monitor_val_loss s.
Proof.
  unfold validate_batch, batch_loss, compute_loss, data_next, val_batch_calls,
    same_model.
  msimpl. simpl params. simpl val_loader_pos.
  destruct (model _ _ _) as [[vq rec] perp].
  eexists _, _. split; [reflexivity|].
  simpl. rewrite <- ?app_assoc. simpl. now split_all.
Qed.

(** The loop of [validate] over any list of indices. *)
Lemma validate_loop_spec t xs : forall loc s,
  exists losses last s',
    for_fold (validate_batch t) loc xs s
      = Ret (fold_left accum_add losses (fst loc), last) s'
    /\ length losses = length xs
    /\ (xs <> [] -> is_Some last)
    /\ calls s' = calls s ++ concat (map val_batch_calls losses)
    /\ same_model s s'
    /\ monitor_train_loss s' = monitor_train_loss s
    /\ monitor_val_loss s' = monitor_val_loss s.
Proof.
  induction xs as [|x xs IH]; intros loc s.
  - exists [], (snd loc), s. simpl. rewrite app_nil_r. destruct loc.
    split_all; first [reflexivity | apply same_model_refl | easy].
  - destruct (validate_batch_spec t loc x s)
      as (rec & s1 & Hrun & Hc & Hsm & Hmt & Hmv).
    destruct (IH (accum_add (fst loc) (batch_loss t true s), Some rec) s1)
      as (losses & last & s2 & Hrun2 & Hlen & Hlast & Hc2 & Hsm2 & Hmt2 & Hmv2).
    assert (Hl : is_Some last).
    { destruct xs as [|y ys]; [|now apply Hlast].
      simpl in Hrun2. unfold ret in Hrun2. injection Hrun2 as _ <- _. eauto. }
    exists (batch_loss t true s :: losses), last, s2.
    simpl for_fold. unfold bind at 1. rewrite Hrun, Hrun2.
    split_all; simpl; try congruence; try easy.
    + rewrite Hc2, Hc, <- app_assoc. reflexivity.
    + eapply same_model_trans; eassumption.
Qed.

(** What [validate] does when the validation iteration count is positive:
    it runs that many batches and logs their accumulated loss divided by
    the trainer's [iterations_per_epoch]. *)
Lemma validate_spec t epoch s n :
  val_iterations_per_epoch t = Some n -> (0 < n)%Z ->
  exists losses s',
    validate t epoch s = Ret tt s'
    /\ length losses = Z.to_nat n
    /\ monitor_val_loss s'
       = monitor_val_loss s
         ++ [(epoch, accum_quot (fold_left accum_add losses IntZero)
                                (iterations_per_epoch t))]
    /\ monitor_train_loss s' = monitor_train_loss s
    /\ calls s' = calls s ++ concat (map val_batch_calls losses)
    /\ same_model s s'.
Proof.
  intros Hv Hn. unfold validate. rewrite Hv.
  destruct (validate_loop_spec t (range n) (IntZero, None) s)
    as (losses & last & s1 & Hrun & Hlen & Hlast & Hc & Hsm & Hmt & Hmv).
  unfold range in Hlen, Hlast. rewrite length_seq in Hlen.
  destruct Hlast as [rec ->].
  { destruct (Z.to_nat n) eqn:E; [lia|discriminate]. }
  assert (Hne : losses <> []).
  { intros ->. simpl in Hlen. lia. }
  simpl fst in Hrun.
  exists losses.
  destruct (fold_accum_arr losses IntZero Hne) as [v Hv'].
  rewrite Hv' in *. eexists. split.
  - msimpl. rewrite Hrun. unfold log_loss, log_image, save_image. msimpl.
    simpl fst. simpl snd. unfold accum_div. msimpl. reflexivity.
  - destruct Hsm as (?&?&?&?). unfold same_model.
    simpl. split_all; congruence.
Qed.

(** Whatever its outcome, [validate] leaves the parameters, the gradient
    buffers and the solver alone and only fetches batches and runs forward
    passes. *)
Lemma validate_frame t epoch s :
  same_model s (final (validate t epoch s))
  /\ exists losses, calls (final (validate t epoch s))
                    = calls s ++ concat (map val_batch_calls losses).
Proof.
  unfold validate.
  destruct (val_iterations_per_epoch t) as [n|].
  2:{ msimpl. split; [apply same_model_refl|]. exists []. simpl.
      now rewrite app_nil_r. }
  destruct (validate_loop_spec t (range n) (IntZero, None) s)
    as (losses & last & s1 & Hrun & Hlen & Hlast & Hc & Hsm & Hmt & Hmv).
  msimpl. rewrite Hrun. simpl fst. simpl snd.
  unfold accum_div, log_loss, log_image, save_image.
  destruct Hsm as (?&?&?&?). unfold same_model.
  destruct (fold_left accum_add losses IntZero);
    [destruct (iterations_per_epoch t =? 0)%Z|];
    msimpl; destruct last; msimpl; simpl;
    (split; [split_all; congruence | eexists; eassumption]).
Qed.

(** The number of iterations that [train] executes, counted on any of
    the calls made once per iteration. *)
Lemma train_iteration_count t epoch s :
  n_procs (comm t) <> 0%Z -> iterations_per_epoch t <> 0%Z ->
  exists s',
    train t epoch s = Ret tt s'
    /\ forall f,
         In f [is_data_next; is_forward; is_backward; is_all_reduce;
               is_update] ->
         count f (calls s')
         = (count f (calls s)
            + Z.to_nat (iterations_per_epoch t / n_procs (comm t)))%nat.
Proof.
  intros Hn Hi.
  destruct (train_spec t epoch s Hn Hi)
    as (losses & s' & Hrun & Hlen & _ & _ & _ & Hc).
  exists s'. split; [exact Hrun|]. intros f Hf.
  rewrite Hc, !count_app, (count_rounds f (batch_calls t) 1 losses), Hlen.
  - simpl in Hf.
    destruct (bool_decide (epoch ∈ learning_rate_decay_epochs t));
      repeat (destruct Hf as [<-|Hf]; [cbn; lia|]); contradiction.
  - intros l. simpl in Hf.
    repeat (destruct Hf as [<-|Hf]; [reflexivity|]). contradiction.
Qed.

(** [save_checkpoint] returns in a state that holds the two files. *)
Lemma save_checkpoint_spec t path epoch s :
  let dir := path_join path ("epoch_" +:+ str epoch) in
  exists s',
    save_checkpoint t path epoch s = Ret tt s'
    /\ dirs s' = {[ dir ]} ∪ dirs s
    /\ files s'
       = <[ dir +:+ "/" +:+ "solver.h5" := SolverFile (solver_states s) ]>
           (<[ dir +:+ "/" +:+ "params.h5" := ParamsFile (params s) ]>
              (files s))
    /\ same_model s s'
    /\ calls s'
       = calls s ++ [SaveParameters (dir +:+ "/" +:+ "params.h5");
                     SaveStates (dir +:+ "/" +:+ "solver.h5")].
Proof.
  intros dir. unfold save_checkpoint, makedirs.
  rewrite !checkpoint_file_path by reflexivity. msimpl.
  eexists. split; [reflexivity|]. unfold same_model. simpl.
  rewrite <- app_assoc. split_all; reflexivity.
Qed.

(** [load_checkpoint] on a directory whose two files hold parameters and
    solver states returns with both installed. *)
Lemma load_checkpoint_spec t dir s p st :
  files s !! path_join dir "params.h5" = Some (ParamsFile p) ->
  files s !! path_join dir "solver.h5" = Some (SolverFile st) ->
  exists s',
    load_checkpoint t dir s = Ret tt s'
    /\ params s' = p /\ solver_states s' = st
    /\ files s' = files s
    /\ learning_rate s' = learning_rate s.
Proof.
  intros Hp Hs. unfold load_checkpoint. msimpl. rewrite Hp. msimpl.
  cbn [files log set_params]. rewrite Hs. msimpl.
  eexists. split; [reflexivity|]. simpl. now split_all.
Qed.

End Facts.
End VQVAEFacts.
(** ** Facts about the Tacotron2 trainer *)

Module Tacotron2Facts.
Import Py PyFacts Tacotron2.

Ltac msimpl :=
  cbv beta iota zeta delta
    [mbind mret M_bind M_ret bind ret modify gets raise final].

Ltac split_all := repeat match goal with |- _ /\ _ => split end.

(** Projections of updated states, without unfolding the maps in them. *)
Ltac psimpl :=
  cbn [model_training placeholder inputs params grads optimizer_states loss
       cur_epoch train_pos valid_pos calls log set_model_training
       set_placeholder set_input set_params set_grads set_optimizer_states
       set_loss set_pos app].

Tactic Notation "psimpl" "in" hyp(H) :=
  cbn [model_training placeholder inputs params grads optimizer_states loss
       cur_epoch train_pos valid_pos calls log set_model_training
       set_placeholder set_input set_params set_grads set_optimizer_states
       set_loss set_pos app] in H.

Section Facts.
Context `{FW : Framework}.

Lemma count_calls_app f (l1 l2 : list call) :
  count f (l1 ++ l2) = (count f l1 + count f l2)%nat.
Proof. unfold count. now rewrite List.filter_app, length_app. Qed.

Lemma quiet_refl s : quiet s s.
Proof.
  unfold quiet. split_all; try reflexivity.
  exists []. now rewrite app_nil_r.
Qed.

Lemma quiet_trans s1 s2 s3 : quiet s1 s2 -> quiet s2 s3 -> quiet s1 s3.
Proof.
  intros (Hp & Hg & Ho & n1 & Hc & Hn1) (Hp' & Hg' & Ho' & n2 & Hc' & Hn2).
  unfold quiet. split_all; try congruence.
  exists (n1 ++ n2). rewrite Hc', Hc, <- app_assoc. split; [reflexivity|].
  rewrite forallb_app, Hn1, Hn2. reflexivity.
Qed.

(** [update_graph] on a key other than the two modes. *)
Lemma update_graph_rejects t key s :
  key <> "train" -> key <> "valid" ->
  update_graph t key s = Exc AssertionError s.
Proof.
  intros H1 H2. unfold update_graph.
  apply String.eqb_neq in H1, H2. rewrite H1, H2. reflexivity.
Qed.

(** [update_graph] on one of the two modes files the handles of
    [build_graph] under the key. *)
Lemma update_graph_accepts t key s :
  key = "train" \/ key = "valid" ->
  exists s',
    update_graph t key s = Ret tt s'
    /\ placeholder s'
       = <[ key := list_to_map
                     (build_graph (hp t) (negb (String.eqb key "valid"))) ]>
           (placeholder s)
    /\ model_training s' = negb (String.eqb key "valid")
    /\ params s' = params s /\ grads s' = grads s
    /\ optimizer_states s' = optimizer_states s
    /\ loss s' = loss s
    /\ calls s' = calls s ++ [ModelCall (negb (String.eqb key "valid"))].
Proof.
  intros [-> | ->]; eexists;
    (split; [unfold update_graph; simpl negb; cbv iota; msimpl; reflexivity|]);
    psimpl; split_all; reflexivity.
Qed.

Lemma build_graph_names h training :
  dom (list_to_map (build_graph h training) : gmap string node)
  = handle_names.
Proof.
  rewrite dom_list_to_map_L. unfold handle_names, build_graph.
  cbv zeta. simpl fmap. vm_compute. reflexivity.
Qed.

Lemma graph_ready_built key (ph : gmap string (gmap string node)) h training s :
  placeholder s = <[ key := list_to_map (build_graph h training) ]> ph ->
  graph_ready key s.
Proof.
  intros Hp. eexists. split.
  - rewrite Hp. apply lookup_insert_eq.
  - intros k Hk. unfold used_handles in Hk. simpl in Hk.
    repeat (destruct Hk as [<-|Hk]; [vm_compute; eauto|]). contradiction.
Qed.

(** One step of a straight-line run: the head of the bind chain is
    executed and the projections of the new state are reduced. *)
Ltac mstep :=
  first [ rewrite bind_assoc | rewrite bind_modify | rewrite bind_gets
        | rewrite bind_ret ];
  cbv beta; psimpl.

Ltac close_quiet :=
  unfold quiet; psimpl; split_all; try reflexivity;
  first [ exists []; rewrite app_nil_r; split; reflexivity
        | eexists; split;
          [rewrite <- ?app_assoc; psimpl; reflexivity | reflexivity] ].

(** The end state of a chain of binds is [quiet] when each step is. *)
Ltac quiet_chain :=
  unfold mbind, M_bind, mret, M_ret;
  repeat first
    [ apply quiet_refl
    | apply final_bind; [apply quiet_trans | | intros ? ?]
    | match goal with
      | |- context [batches ?l ?i] => destruct (batches l i) as [[? ?] ?]
      | |- quiet _ (final ((if ?b then _ else _) _)) => destruct b
      | |- quiet _ (final (getitem ?d ?k _)) =>
          unfold getitem; destruct (d !! k); apply quiet_refl
      | |- quiet _ (final (modify _ _)) =>
          unfold modify, final; close_quiet
      end ].

Lemma split_here {A} (l : list A) : l = [] ++ l.
Proof. reflexivity. Qed.

Lemma split_later {A} (x : A) l pre suf :
  l = pre ++ suf -> x :: l = (x :: pre) ++ suf.
Proof. intros ->. reflexivity. Qed.

(** Solves [calls s' = calls s ++ ?pre ++ suffix] for a computed log. *)
Ltac split_calls s :=
  etransitivity; [rewrite <- ?app_assoc; psimpl; reflexivity|];
  apply (f_equal (app (calls s)));
  repeat first [apply split_here | apply split_later].

(** One training batch on a built graph: it returns, and its calls are a
    prefix holding one backward pass and neither a reduction nor an
    update, then the gradient reduction when there is more than one
    worker, then the update. *)
Lemma train_on_batch_spec t s :
  graph_ready "train" s ->
  exists s' pre,
    train_on_batch t s = Ret tt s'
    /\ calls s'
       = calls s ++ pre
         ++ (if (1 <? n_procs (comm (hp t)))%Z
             then [AllReduceGrads true false; AddStreamEvent] else [])
         ++ [Update]
    /\ count is_backward pre = 1%nat
    /\ count is_grad_reduce pre = 0%nat
    /\ count is_update pre = 0%nat.
Proof.
  intros (p & Hp & Hk).
  destruct (Hk "x_mel") as [x_mel Hxm]; [simpl; tauto|].
  destruct (Hk "x_txt") as [x_txt Hxt]; [simpl; tauto|].
  destruct (Hk "x_gat") as [x_gat Hxg]; [simpl; tauto|].
  destruct (Hk "l_net") as [l_net Hln]; [simpl; tauto|].
  destruct (Hk "l_mel") as [l_mel Hlm]; [simpl; tauto|].
  destruct (Hk "l_gat") as [l_gat Hlg]; [simpl; tauto|].
  unfold train_on_batch, feed, monitor_update, getitem.
  unfold mbind, M_bind, mret, M_ret.
  mstep. rewrite Hp. mstep. mstep.
  rewrite Hxm, Hxt, Hxg, Hln, Hlm, Hlg.
  destruct (1 <? n_procs (comm (hp t)))%Z; repeat mstep;
    destruct (batches _ _) as [[mel txt] gat]; repeat mstep;
    unfold modify; psimpl;
    destruct (optimizer_update _ _ _) as [st pr];
    (eexists _, _; split; [reflexivity|]); psimpl;
    (split; [split_calls s|]); split_all; reflexivity.
Qed.

(** A validation batch makes forward passes only, whatever its outcome. *)
Lemma valid_on_batch_quiet t s : quiet s (final (valid_on_batch t s)).
Proof. unfold valid_on_batch, feed, monitor_update. quiet_chain. Qed.

Lemma title_att :
  (list_to_map [("o_att", "Attention"); ("o_mel", "Mel spectrogram")]
     : gmap string string) !! "o_att" = Some "Attention".
Proof. reflexivity. Qed.

Lemma title_mel :
  (list_to_map [("o_att", "Attention"); ("o_mel", "Mel spectrogram")]
     : gmap string string) !! "o_mel" = Some "Mel spectrogram".
Proof. reflexivity. Qed.

(** The report and the checkpoint of rank 0 make forward passes only,
    whatever their outcome. *)
Lemma report_and_checkpoint_quiet t s :
  quiet s (final (report_and_checkpoint t s)).
Proof. unfold report_and_checkpoint, save_output. quiet_chain. Qed.

Lemma normalise_loss_spec t s :
  exists s',
    normalise_loss t s = Ret tt s'
    /\ quiet s s'
    /\ loss s'
       = np_div (if (1 <? n_procs (comm (hp t)))%Z
                 then all_reduce_loss (comm (hp t)) true false (loss s)
                 else loss s)
                (np_int (size (dataloader_valid t)))
    /\ calls s'
       = calls s ++ (if (1 <? n_procs (comm (hp t)))%Z
                     then [AllReduceLoss true false] else [])
    /\ placeholder s' = placeholder s
    /\ cur_epoch s' = cur_epoch s.
Proof.
  unfold normalise_loss.
  destruct (1 <? n_procs (comm (hp t)))%Z; msimpl;
    (eexists; split; [reflexivity|]); psimpl;
    (split; [close_quiet|]); rewrite ?app_nil_r; split_all; reflexivity.
Qed.

(** [callback_on_epoch_end] makes no backward pass, no gradient reduction
    and no update, whatever its outcome. *)
Lemma callback_on_epoch_end_quiet t s :
  quiet s (final (callback_on_epoch_end t s)).
Proof.
  unfold callback_on_epoch_end. unfold mbind, M_bind.
  apply final_bind; [apply quiet_trans| |intros [] s1].
  - destruct (normalise_loss_spec t s) as (s1 & -> & Hq1 & _). exact Hq1.
  - apply final_bind; [apply quiet_trans| |intros [] s2].
    + apply report_and_checkpoint_quiet.
    + unfold modify, final. close_quiet.
Qed.

(** Any number of validation batches, then the epoch callback, make
    forward passes only. *)
Lemma validation_pass_quiet t n s :
  quiet s (final (validation_pass t n s)).
Proof.
  unfold validation_pass. unfold mbind, M_bind. apply final_bind.
  - apply quiet_trans.
  - apply final_for_fold;
      [apply quiet_refl | apply quiet_trans
      | intros; apply valid_on_batch_quiet].
  - intros [] s'. apply callback_on_epoch_end_quiet.
Qed.

(** On the worker of rank 0 the report needs the training graph and a
    checkpoint period other than zero; then it returns, and its first call
    reports the loss. *)
Lemma report_and_checkpoint_returns t s :
  ((rank (comm (hp t)) = 0)%Z ->
     graph_ready "train" s /\ epochs_per_checkpoint (hp t) <> 0%Z) ->
  exists s',
    report_and_checkpoint t s = Ret tt s'
    /\ ((rank (comm (hp t)) = 0)%Z ->
          exists rest, calls s' = calls s ++ MonitorInfo (loss s) :: rest)
    /\ ((rank (comm (hp t)) <> 0)%Z -> s' = s).
Proof.
  intros H. unfold report_and_checkpoint.
  destruct (rank (comm (hp t)) =? 0)%Z eqn:Hr.
  2:{ apply Z.eqb_neq in Hr. exists s. now split_all. }
  apply Z.eqb_eq in Hr. destruct (H Hr) as [(p & Hp & Hk) He].
  apply Z.eqb_neq in He.
  destruct (Hk "o_att") as [o_att Hoa]; [simpl; tauto|].
  destruct (Hk "o_mel") as [o_mel Hom]; [simpl; tauto|].
  unfold getitem. unfold mbind, M_bind, mret, M_ret.
  mstep. rewrite Hp. repeat mstep. rewrite He. repeat mstep.
  destruct (cur_epoch s mod epochs_per_checkpoint (hp t) =? 0)%Z.
  2:{ eexists. split; [reflexivity|]. psimpl.
      split; [eauto | congruence]. }
  repeat mstep. unfold save_output, getitem.
  unfold mbind, M_bind, mret, M_ret.
  rewrite title_att, title_mel, Hoa, Hom.
  repeat mstep. unfold modify.
  eexists. split; [reflexivity|]. psimpl.
  split; [|congruence]. intros _. eexists.
  rewrite <- !app_assoc. psimpl. reflexivity.
Qed.

End Facts.
End Tacotron2Facts.
(** ** The properties of the specification *)

Module Claims.
Import Py PyFacts Runs.

Section VQVAEClaims.
Import VQVAE VQVAEFacts.

(** C1.  The claim: the epoch loss reported by [train] is the mean of the
    batch losses over the iterations executed, which are
    ceil(size / batch_size / n_procs).  With 100 images, batches of 10 and
    two workers the trainer computes 5 iterations per epoch, [train] runs
    two batches, of losses 1 and 2, and reports 3/5: their sum divided by
    5, not their mean 3/2. *)
Theorem train_two_workers_epoch_loss :
  exists s2 v,
    vq_init 2 = Ret (vq_trainer 2 5 1) vq_ready
    /\ train (vq_trainer 2 5 1) 0 vq_ready = Ret tt s2
    /\ Forall2 np_eq (displayed (calls s2)) [Finite 1; Finite 2]
    /\ monitor_train_loss s2 = [(0%Z, v)]
    /\ np_eq v (Finite (3 # 5))
    /\ ~ np_eq v (mean_loss (displayed (calls s2))).
Proof.
  exists (final (train (vq_trainer 2 5 1) 0 vq_ready)).
  exists (snd (hd (0%Z, NonFinite)
                 (monitor_train_loss
                    (final (train (vq_trainer 2 5 1) 0 vq_ready))))).
  split; [reflexivity|].
  split; [vm_compute; reflexivity|].
  split; [vm_compute; repeat constructor|].
  split; [vm_compute; reflexivity|].
  split; [vm_compute; reflexivity|].
  vm_compute. discriminate.
Qed.

(** C2.  The claim: [train] executes ceil(size / batch_size / n_procs)
    batch iterations in an epoch.  With 100 images, batches of 10 and two
    workers that count is 5, the value of [iterations_per_epoch]; the loop
    of [train] runs over [iterations_per_epoch // n_procs] and executes
    two iterations: two fetches, forward passes, backward passes,
    reductions and updates. *)
Theorem train_two_workers_iterations :
  exists s2,
    vq_init 2 = Ret (vq_trainer 2 5 1) vq_ready
    /\ Qceiling (inject_Z 100 / inject_Z 10 / inject_Z 2) = 5%Z
    /\ iterations_per_epoch (vq_trainer 2 5 1) = 5%Z
    /\ train (vq_trainer 2 5 1) 0 vq_ready = Ret tt s2
    /\ count is_data_next (calls s2) = 2%nat
    /\ count is_forward (calls s2) = 2%nat
    /\ count is_backward (calls s2) = 2%nat
    /\ count is_all_reduce (calls s2) = 2%nat
    /\ count is_update (calls s2) = 2%nat.
Proof.
  exists (final (train (vq_trainer 2 5 1) 0 vq_ready)).
  split; [reflexivity|].
  split; [reflexivity|].
  split; [reflexivity|].
  split; [vm_compute; reflexivity|].
  repeat split; vm_compute; reflexivity.
Qed.

(** C3.  The claim: the validation loss reported by [validate] is the sum
    of the batch losses divided by the number of validation iterations
    executed.  With 100 training images, 20 validation images, batches of
    10 and one worker, [validate] runs its two validation batches, of
    losses 1 and 2, and reports 3/10: their sum divided by the ten
    training iterations of [iterations_per_epoch], not by two. *)
Theorem validate_divides_by_training_iterations :
  exists s2 v,
    vq_init 1 = Ret (vq_trainer 1 10 2) vq_ready
    /\ validate (vq_trainer 1 10 2) 0 vq_ready = Ret tt s2
    /\ count is_forward (calls s2) = 2%nat
    /\ Forall2 np_eq (displayed (calls s2)) [Finite 1; Finite 2]
    /\ monitor_val_loss s2 = [(0%Z, v)]
    /\ np_eq v (Finite (3 # 10))
    /\ ~ np_eq v (mean_loss (displayed (calls s2))).
Proof.
  exists (final (validate (vq_trainer 1 10 2) 0 vq_ready)).
  exists (snd (hd (0%Z, NonFinite)
                 (monitor_val_loss
                    (final (validate (vq_trainer 1 10 2) 0 vq_ready))))).
  split; [reflexivity|].
  split; [vm_compute; reflexivity|].
  split; [vm_compute; reflexivity|].
  split; [vm_compute; repeat constructor|].
  split; [vm_compute; reflexivity|].
  split; [vm_compute; reflexivity|].
  vm_compute. discriminate.
Qed.

(** C6, as the specification states it, fails on a normalised batch that
    holds the value 1: the batch [1] lies in [0, 1] and is divided by 255,
    so that it is not mapped to (1 - 0.5) / 0.5. *)
Lemma convert_to_var_value_one :
  Forall (fun x => 0 <= x <= 1)%Q [1%Q]
  /\ ~ Forall2 Qeq (convert_to_var [1%Q])
                   (map (fun x => (x - (1#2)) / (1#2))%Q [1%Q]).
Proof.
  split.
  - constructor; [split; discriminate|constructor].
  - vm_compute. intros H. inversion H as [|? ? ? ? Hq _]; subst.
    vm_compute in Hq. discriminate.
Qed.

(** C6 (amended).  [convert_to_var] maps a batch whose values all lie in
    [0, 1), strictly below 1, to (x - 0.5) / 0.5, which lands in [-1, 1);
    a batch with values in [0, 255] of which one at least is 1 or more is
    first divided by 255 and then rescaled in the same way, which lands
    in [-1, 1]. *)
Theorem convert_to_var_ranges (img : list Q) :
  (Forall (fun x => 0 <= x < 1)%Q img ->
     convert_to_var img = map (fun x => (x - (1#2)) / (1#2))%Q img
     /\ Forall (fun y => -1 <= y < 1)%Q (convert_to_var img))
  /\ (Forall (fun x => 0 <= x <= 255)%Q img ->
      Exists (fun x => 1 <= x)%Q img ->
     convert_to_var img = map (fun x => (x / 255 - (1#2)) / (1#2))%Q img
     /\ Forall (fun y => -1 <= y <= 1)%Q (convert_to_var img)).
Proof.
  split.
  - intros H.
    assert (Hlt : Forall (fun x => x < 1)%Q img).
    { eapply Forall_impl; [exact H|]. simpl. tauto. }
    rewrite (convert_to_var_unit img Hlt). split; [reflexivity|].
    rewrite Forall_map. eapply Forall_impl; [exact H|].
    intros x Hx. simpl in *. rewrite half_div. lra.
  - intros H He.
    rewrite (convert_to_var_bytes img He). split; [reflexivity|].
    rewrite Forall_map. eapply Forall_impl; [exact H|].
    intros x Hx. simpl in *. rewrite half_div, byte_div. lra.
Qed.

Lemma convert_to_var_ranges_witness :
  (convert_to_var [0; 1#2]%Q = map (fun x => (x - (1#2)) / (1#2))%Q [0; 1#2]%Q
   /\ Forall (fun y => -1 <= y < 1)%Q (convert_to_var [0; 1#2]%Q))
  /\ (convert_to_var [0; 255]%Q
       = map (fun x => (x / 255 - (1#2)) / (1#2))%Q [0; 255]%Q
      /\ Forall (fun y => -1 <= y <= 1)%Q (convert_to_var [0; 255]%Q)).
Proof.
  split.
  - apply (proj1 (convert_to_var_ranges [0; 1#2]%Q)).
    repeat constructor; discriminate.
  - apply (proj2 (convert_to_var_ranges [0; 255]%Q)).
    + repeat constructor; discriminate.
    + apply Exists_cons_tl, Exists_cons_hd. discriminate.
Defined.

(** C7.  Once the trainer has a worker count and an iteration count other
    than zero, [train(epoch)] returns; the learning rate after it is the
    learning rate before it times the decay factor when the epoch is in
    [learning_rate_decay_epochs], and is unchanged when it is not. *)
Theorem train_learning_rate_decay `{FW : Framework} (t : trainer)
    (epoch : Z) (s : state) :
  n_procs (comm t) <> 0%Z -> iterations_per_epoch t <> 0%Z ->
  exists s',
    train t epoch s = Ret tt s'
    /\ (epoch ∈ learning_rate_decay_epochs t ->
        learning_rate s'
        = (learning_rate s * learning_rate_decay_factor t)%Q)
    /\ (epoch ∉ learning_rate_decay_epochs t ->
        learning_rate s' = learning_rate s).
Proof.
  intros Hn Hi.
  destruct (train_spec t epoch s Hn Hi)
    as (losses & s' & Hrun & _ & _ & _ & Hlr & _).
  exists s'. split; [exact Hrun|]. rewrite Hlr.
  split; intros He.
  - now rewrite bool_decide_eq_true_2.
  - now rewrite bool_decide_eq_false_2.
Qed.

Lemma train_learning_rate_decay_witness :
  exists s',
    train (vq_trainer 1 10 2) 2 vq_ready = Ret tt s'
    /\ (2%Z ∈ [2; 4]%Z ->
        learning_rate s' = (1 * (1 # 2))%Q)
    /\ (2%Z ∉ [2; 4]%Z -> learning_rate s' = 1%Q).
Proof.
  apply (train_learning_rate_decay (vq_trainer 1 10 2) 2 vq_ready);
    simpl; lia.
Defined.

(** C8.  [save_checkpoint(path, epoch)] creates the directory
    [path/epoch_<epoch>] and writes the parameters to [params.h5] and the
    solver states to [solver.h5] in it, two different files;
    [load_checkpoint] on that directory, whatever the parameters and the
    solver states have become in between, returns with the parameters and
    the solver states that were saved. *)
Theorem checkpoint_round_trip `{FW : Framework} (t : trainer)
    (path : string) (epoch : Z) (s : state) (p' : Params)
    (st' : SolverStates) :
  let dir := path_join path ("epoch_" +:+ str epoch) in
  let params_file := dir +:+ "/" +:+ "params.h5" in
  let solver_file := dir +:+ "/" +:+ "solver.h5" in
  exists s1 s2,
    save_checkpoint t path epoch s = Ret tt s1
    /\ dir ∈ dirs s1
    /\ params_file <> solver_file
    /\ files s1 !! params_file = Some (ParamsFile (params s))
    /\ files s1 !! solver_file = Some (SolverFile (solver_states s))
    /\ load_checkpoint t dir (set_params p' (set_solver_states st' s1))
       = Ret tt s2
    /\ params s2 = params s
    /\ solver_states s2 = solver_states s.
Proof.
  intros dir params_file solver_file.
  destruct (save_checkpoint_spec t path epoch s)
    as (s1 & Hsave & Hd & Hf & _ & _).
  fold dir in Hd, Hf. fold params_file solver_file in Hf.
  assert (Hne : params_file <> solver_file).
  { unfold params_file, solver_file. intros H.
    apply append_inj_r in H. discriminate. }
  assert (Hp : files s1 !! params_file = Some (ParamsFile (params s))).
  { rewrite Hf, lookup_insert_ne by congruence. apply lookup_insert_eq. }
  assert (Hs : files s1 !! solver_file = Some (SolverFile (solver_states s))).
  { rewrite Hf. apply lookup_insert_eq. }
  destruct (load_checkpoint_spec t dir
              (set_params p' (set_solver_states st' s1))
              (params s) (solver_states s))
    as (s2 & Hload & Hp2 & Hs2 & _).
  { unfold dir. rewrite checkpoint_file_path by reflexivity. exact Hp. }
  { unfold dir. rewrite checkpoint_file_path by reflexivity. exact Hs. }
  exists s1, s2. split_all; try assumption.
  rewrite Hd. apply elem_of_union_l, elem_of_singleton. reflexivity.
Qed.

End VQVAEClaims.

Section Tacotron2Claims.
Import Tacotron2 Tacotron2Facts.

(** C9.  With more than one worker, [callback_on_epoch_end] first
    all-reduces the accumulated validation loss with [division=True], the
    average, and then divides it by the size of the validation set; when
    it returns, which on the worker of rank 0 needs the training graph and
    a checkpoint period other than zero, the accumulator is zero again.
    The worker of rank 0 reports the averaged and divided loss. *)
Theorem epoch_end_averages_then_zeroes `{FW : Framework} (t : trainer)
    (s : state) :
  (1 < n_procs (comm (hp t)))%Z ->
  ((rank (comm (hp t)) = 0)%Z ->
     graph_ready "train" s /\ epochs_per_checkpoint (hp t) <> 0%Z) ->
  exists s1 s2 mid,
    normalise_loss t s = Ret tt s1
    /\ calls s1 = calls s ++ [AllReduceLoss true false]
    /\ loss s1
       = np_div (all_reduce_loss (comm (hp t)) true false (loss s))
                (np_int (size (dataloader_valid t)))
    /\ callback_on_epoch_end t s = Ret tt s2
    /\ calls s2 = calls s ++ AllReduceLoss true false :: mid ++ [LossZero]
    /\ ((rank (comm (hp t)) = 0)%Z ->
        exists rest, mid = MonitorInfo (loss s1) :: rest)
    /\ loss s2 = Finite 0.
Proof.
  intros Hn Hready.
  destruct (normalise_loss_spec t s)
    as (s1 & Hnorm & _ & Hl & Hc & Hph & _).
  apply Z.ltb_lt in Hn. rewrite Hn in Hl, Hc.
  destruct (report_and_checkpoint_returns t s1)
    as (s' & Hrep & Hzero & Hother).
  { intros Hr. destruct (Hready Hr) as [(p & Hp & Hk) He].
    split; [|exact He]. exists p. rewrite Hph. auto. }
  assert (Hmid : exists mid,
            calls s' = calls s1 ++ mid
            /\ ((rank (comm (hp t)) = 0)%Z ->
                exists rest, mid = MonitorInfo (loss s1) :: rest)).
  { destruct (Z.eq_dec (rank (comm (hp t))) 0%Z) as [Hr|Hr].
    - destruct (Hzero Hr) as [rest Hrest].
      exists (MonitorInfo (loss s1) :: rest). eauto.
    - rewrite (Hother Hr). exists []. rewrite app_nil_r.
      split; [reflexivity|]. intros; contradiction. }
  destruct Hmid as (mid & Hcalls & Hfirst).
  exists s1, (log LossZero (set_loss (Finite 0) s')), mid.
  split_all; try assumption; try reflexivity.
  - unfold callback_on_epoch_end, mbind, M_bind.
    unfold bind at 1. rewrite Hnorm.
    unfold bind at 1. rewrite Hrep. reflexivity.
  - cbn [calls log set_loss]. rewrite Hcalls, Hc, <- !app_assoc.
    reflexivity.
Qed.

Lemma epoch_end_averages_then_zeroes_witness :
  exists s1 s2 mid,
    normalise_loss (taco_trainer 2) (taco_built 2) = Ret tt s1
    /\ calls s1 = calls (taco_built 2) ++ [AllReduceLoss true false]
    /\ loss s1
       = np_div (all_reduce_loss (taco_comm 2) true false (Finite 8))
                (np_int 4)
    /\ callback_on_epoch_end (taco_trainer 2) (taco_built 2) = Ret tt s2
    /\ calls s2
       = calls (taco_built 2) ++ AllReduceLoss true false :: mid ++ [LossZero]
    /\ ((0 = 0)%Z -> exists rest, mid = MonitorInfo (loss s1) :: rest)
    /\ loss s2 = Finite 0.
Proof.
  apply (epoch_end_averages_then_zeroes (taco_trainer 2) (taco_built 2)).
  - reflexivity.
  - intros _. split; [|discriminate].
    apply (graph_ready_built "train"
             (<[ "valid" := list_to_map
                              (build_graph (hp (taco_trainer 2)) false) ]> ∅)
             (hp (taco_trainer 2)) true).
    vm_compute. reflexivity.
Defined.

(** C10.  [update_graph(key)] fails its assertion, and changes nothing,
    for every key other than 'train' and 'valid'.  For these two keys it
    returns, [placeholder[key]] is a new dictionary, built from the
    hyper-parameters and the mode alone, whose keys are the ten names of
    [handle_names]; the other keys of [placeholder] are untouched, and
    [model.training] is true exactly when the key is not 'valid'. *)
Theorem update_graph_contract `{FW : Framework} (t : trainer)
    (key : string) (s : state) :
  (key <> "train" -> key <> "valid" ->
     update_graph t key s = Exc AssertionError s)
  /\ (key = "train" \/ key = "valid" ->
      exists s' (h : gmap string node),
        update_graph t key s = Ret tt s'
        /\ h = list_to_map
                 (build_graph (hp t) (negb (String.eqb key "valid")))
        /\ placeholder s' = <[ key := h ]> (placeholder s)
        /\ dom h = handle_names
        /\ (model_training s' = true <-> key <> "valid")).
Proof.
  split.
  - apply update_graph_rejects.
  - intros Hk.
    destruct (update_graph_accepts t key s Hk)
      as (s' & Hrun & Hp & Ht & _).
    exists s'. eexists. split; [exact Hrun|]. split; [reflexivity|].
    split; [exact Hp|]. split; [apply build_graph_names|].
    rewrite Ht. destruct Hk as [-> | ->]; simpl; split;
      congruence || discriminate || auto.
Qed.

Lemma update_graph_contract_witness :
  update_graph (taco_trainer 2) "test" taco_state
  = Exc AssertionError taco_state
  /\ exists s' (h : gmap string node),
       update_graph (taco_trainer 2) "valid" taco_state = Ret tt s'
       /\ h = list_to_map (build_graph (hp (taco_trainer 2)) false)
       /\ placeholder s' = <[ "valid" := h ]> ∅
       /\ dom h = handle_names
       /\ (model_training s' = true <-> "valid" <> "valid").
Proof.
  split.
  - apply (proj1 (update_graph_contract (taco_trainer 2) "test" taco_state));
      discriminate.
  - apply (proj2 (update_graph_contract (taco_trainer 2) "valid" taco_state)).
    right. reflexivity.
Defined.

End Tacotron2Claims.
Section BothDrivers.

(** C4, as the specification states it, fails on the Tacotron2 driver: with
    two workers the gradient reduction of [train_on_batch] is made with
    [division=True], so the reductions of the batch are not all sums. *)
Lemma tacotron2_reduction_divides :
  ~ Tacotron2.sum_reductions_only
      (Tacotron2.calls
         (final (Tacotron2.train_on_batch (taco_trainer 2) (taco_built 2)))).
Proof.
  intros H. specialize (H true false).
  assert (Hin : In (Tacotron2.AllReduceGrads true false)
                   (Tacotron2.calls
                      (final (Tacotron2.train_on_batch (taco_trainer 2)
                                                       (taco_built 2))))).
  { vm_compute. repeat (try (left; reflexivity); right). }
  specialize (H Hin). discriminate.
Qed.

(** C4 (amended).  Every training batch of the VQ-VAE driver makes exactly
    one all-reduce of the gradient buffers, with [division=False], a sum,
    and makes it before its one optimizer update.  Every training batch of
    the Tacotron2 driver run with more than one worker on a built graph
    makes exactly one all-reduce of the gradient buffers, with
    [division=True], an average, and makes it before its one optimizer
    update. *)
Theorem one_gradient_reduction_before_update
    `{FV : VQVAE.Framework} `{FT : Tacotron2.Framework} :
  (forall (t : VQVAE.trainer) epoch acc i s,
     exists acc' s' pre post,
       VQVAE.train_batch t epoch acc i s = Ret acc' s'
       /\ VQVAE.calls s'
          = VQVAE.calls s ++ pre ++ VQVAE.AllReduce false true :: post
       /\ VQVAE.count VQVAE.is_all_reduce (pre ++ post) = 0%nat
       /\ VQVAE.count VQVAE.is_update pre = 0%nat
       /\ VQVAE.count VQVAE.is_update post = 1%nat)
  /\ (forall (t : Tacotron2.trainer) s,
     (1 < Tacotron2.n_procs (Tacotron2.comm (Tacotron2.hp t)))%Z ->
     Tacotron2.graph_ready "train" s ->
     exists s' pre post,
       Tacotron2.train_on_batch t s = Ret tt s'
       /\ Tacotron2.calls s'
          = Tacotron2.calls s ++ pre
            ++ Tacotron2.AllReduceGrads true false :: post
       /\ Tacotron2.count Tacotron2.is_grad_reduce (pre ++ post) = 0%nat
       /\ Tacotron2.count Tacotron2.is_update pre = 0%nat
       /\ Tacotron2.count Tacotron2.is_update post = 1%nat).
Proof.
  split.
  - intros t epoch acc i s.
    destruct (VQVAEFacts.train_batch_spec t epoch acc i s)
      as (s' & Hrun & Hc & _).
    exists (Py.accum_add acc (VQVAE.batch_loss t false s)), s'.
    exists [VQVAE.DataNext false; VQVAE.ModelForward false;
            VQVAE.SetDescription (VQVAE.batch_loss t false s);
            VQVAE.SetParameters; VQVAE.ZeroGrad; VQVAE.Backward].
    exists [VQVAE.WeightDecay (VQVAE.weight_decay t); VQVAE.Update].
    split; [exact Hrun|]. split; [exact Hc|]. repeat split.
  - intros t s Hn Hready.
    destruct (Tacotron2Facts.train_on_batch_spec t s Hready)
      as (s' & pre & Hrun & Hc & _ & Hr & Hu).
    apply Z.ltb_lt in Hn. rewrite Hn in Hc.
    exists s', pre, [Tacotron2.AddStreamEvent; Tacotron2.Update].
    split; [exact Hrun|]. split; [exact Hc|].
    rewrite Tacotron2Facts.count_calls_app, Hr. repeat split. exact Hu.
Qed.

Lemma one_gradient_reduction_before_update_witness :
  exists s' pre post,
    Tacotron2.train_on_batch (taco_trainer 2) (taco_built 2) = Ret tt s'
    /\ Tacotron2.calls s'
       = Tacotron2.calls (taco_built 2) ++ pre
         ++ Tacotron2.AllReduceGrads true false :: post
    /\ Tacotron2.count Tacotron2.is_grad_reduce (pre ++ post) = 0%nat
    /\ Tacotron2.count Tacotron2.is_update pre = 0%nat
    /\ Tacotron2.count Tacotron2.is_update post = 1%nat.
Proof.
  apply (proj2 (one_gradient_reduction_before_update
                  (FV := vq_framework) (FT := taco_framework))
               (taco_trainer 2) (taco_built 2)).
  - reflexivity.
  - apply (Tacotron2Facts.graph_ready_built "train"
             (<[ "valid" := list_to_map
                   (Tacotron2.build_graph (Tacotron2.hp (taco_trainer 2))
                                          false) ]> ∅)
             (Tacotron2.hp (taco_trainer 2)) true).
    vm_compute. reflexivity.
Defined.

(** C5, as the specification states it, fails on the Tacotron2 driver run
    with one worker: its training batch returns without any gradient
    reduction. *)
Lemma tacotron2_single_worker_no_reduction :
  Tacotron2.train_on_batch (taco_trainer 1) (taco_built 1)
  = Ret tt (final (Tacotron2.train_on_batch (taco_trainer 1) (taco_built 1)))
  /\ Tacotron2.count Tacotron2.is_grad_reduce
       (Tacotron2.calls
          (final (Tacotron2.train_on_batch (taco_trainer 1) (taco_built 1))))
     <> 1%nat.
Proof.
  split; [vm_compute; reflexivity|]. vm_compute. discriminate.
Qed.

(** C5 (amended).  In both drivers validation makes no backward pass, no
    gradient reduction and no optimizer update, and leaves the parameters,
    the gradient buffers and the solver or optimizer as they were: [validate]
    of the VQ-VAE driver, and for Tacotron2 each [valid_on_batch] and any
    number of them followed by [callback_on_epoch_end], whatever the
    outcome.  Each training batch makes exactly one optimizer update; it
    makes exactly one gradient reduction in the VQ-VAE driver, and in the
    Tacotron2 driver, on a built graph, exactly one when there is more than
    one worker and none otherwise. *)
Theorem validation_is_quiet_training_updates_once
    `{FV : VQVAE.Framework} `{FT : Tacotron2.Framework} :
  (forall (t : VQVAE.trainer) epoch s,
     VQVAE.same_model s (final (VQVAE.validate t epoch s))
     /\ exists new,
          VQVAE.calls (final (VQVAE.validate t epoch s))
          = VQVAE.calls s ++ new
          /\ VQVAE.count VQVAE.is_backward new = 0%nat
          /\ VQVAE.count VQVAE.is_all_reduce new = 0%nat
          /\ VQVAE.count VQVAE.is_update new = 0%nat)
  /\ (forall (t : Tacotron2.trainer) s,
        Tacotron2.quiet s (final (Tacotron2.valid_on_batch t s)))
  /\ (forall (t : Tacotron2.trainer) n s,
        Tacotron2.quiet s (final (Tacotron2.validation_pass t n s)))
  /\ (forall (t : VQVAE.trainer) epoch acc i s,
        exists acc' s' new,
          VQVAE.train_batch t epoch acc i s = Ret acc' s'
          /\ VQVAE.calls s' = VQVAE.calls s ++ new
          /\ VQVAE.count VQVAE.is_all_reduce new = 1%nat
          /\ VQVAE.count VQVAE.is_update new = 1%nat)
  /\ (forall (t : Tacotron2.trainer) s,
        Tacotron2.graph_ready "train" s ->
        exists s' new,
          Tacotron2.train_on_batch t s = Ret tt s'
          /\ Tacotron2.calls s' = Tacotron2.calls s ++ new
          /\ Tacotron2.count Tacotron2.is_update new = 1%nat
          /\ Tacotron2.count Tacotron2.is_grad_reduce new
             = (if (1 <? Tacotron2.n_procs
                           (Tacotron2.comm (Tacotron2.hp t)))%Z
                then 1 else 0)%nat).
Proof.
  split; [|split; [|split; [|split]]].
  - intros t epoch s.
    destruct (VQVAEFacts.validate_frame t epoch s) as [Hsm [losses Hc]].
    split; [exact Hsm|]. eexists. split; [exact Hc|].
    repeat split;
      rewrite (VQVAEFacts.count_rounds _ VQVAE.val_batch_calls 0 losses);
      solve [lia | intros; reflexivity].
  - intros t s. apply Tacotron2Facts.valid_on_batch_quiet.
  - intros t n s. apply Tacotron2Facts.validation_pass_quiet.
  - intros t epoch acc i s.
    destruct (VQVAEFacts.train_batch_spec t epoch acc i s)
      as (s' & Hrun & Hc & _).
    eexists _, s', _. split; [exact Hrun|]. split; [exact Hc|].
    split; reflexivity.
  - intros t s Hready.
    destruct (Tacotron2Facts.train_on_batch_spec t s Hready)
      as (s' & pre & Hrun & Hc & _ & Hr & Hu).
    exists s'. eexists. split; [exact Hrun|]. split; [exact Hc|].
    rewrite !Tacotron2Facts.count_calls_app, Hr, Hu.
    destruct (1 <? _)%Z; split; reflexivity.
Qed.

Lemma validation_is_quiet_training_updates_once_witness :
  exists s' new,
    Tacotron2.train_on_batch (taco_trainer 1) (taco_built 1) = Ret tt s'
    /\ Tacotron2.calls s' = Tacotron2.calls (taco_built 1) ++ new
    /\ Tacotron2.count Tacotron2.is_update new = 1%nat
    /\ Tacotron2.count Tacotron2.is_grad_reduce new = 0%nat.
Proof.
  apply (proj2 (proj2 (proj2 (proj2
           (validation_is_quiet_training_updates_once
              (FV := vq_framework) (FT := taco_framework)))))
           (taco_trainer 1) (taco_built 1)).
  apply (Tacotron2Facts.graph_ready_built "train"
           (<[ "valid" := list_to_map
                 (Tacotron2.build_graph (Tacotron2.hp (taco_trainer 1))
                                        false) ]> ∅)
           (Tacotron2.hp (taco_trainer 1)) true).
  vm_compute. reflexivity.
Defined.

End BothDrivers.
End Claims.

(** ** Further properties of the VQ-VAE trainer *)

Module VQVAEProperties.
Import Py PyFacts Runs VQVAE VQVAEFacts.

(** *** Arithmetic of the iteration count *)

Lemma ceil_neg_div (a m : Z) :
  (0 < m)%Z -> (- ((- a) / m) = (a + m - 1) / m)%Z.
Proof.
  intros Hm. apply Z.div_unique with (r := ((m - 1) - ((- a) mod m))%Z).
  - left. pose proof (Z.mod_pos_bound (- a) m Hm). lia.
  - pose proof (Z.div_mod (- a) m). lia.
Qed.

Lemma Qceiling_div3 (a b c : Z) :
  (0 < b)%Z -> (0 < c)%Z ->
  Qceiling (inject_Z a / inject_Z b / inject_Z c)
  = ((a + b * c - 1) / (b * c))%Z.
Proof.
  intros Hb Hc.
  destruct b as [|b|b]; try lia. destruct c as [|c|c]; try lia.
  unfold Qceiling, Qfloor, Qdiv, Qmult, Qinv, inject_Z, Qopp. simpl.
  rewrite !Z.mul_1_r, Pos.mul_1_l, Pos2Z.inj_mul. apply ceil_neg_div. lia.
Qed.

Lemma ceil_div3_pos {St} (a b c : Z) (s : St) :
  (0 < b)%Z -> (0 < c)%Z ->
  ceil_div3 a b c s = Ret ((a + b * c - 1) / (b * c))%Z s.
Proof.
  intros Hb Hc. unfold ceil_div3.
  replace (b =? 0)%Z with false by (symmetry; apply Z.eqb_neq; lia).
  replace (c =? 0)%Z with false by (symmetry; apply Z.eqb_neq; lia).
  simpl. unfold ret. now rewrite Qceiling_div3.
Qed.


Section Properties.
Context `{FW : Framework}.


(** X2.  [__init__] raises ZeroDivisionError, having changed nothing, when
    the batch size of the training iterator or the worker count is zero;
    when only the batch size of the validation iterator is zero (dataset
    other than ImageNet) it raises after it has created the two
    reconstruction directories. *)
Theorem init_zero_division (dl vdl : loader) (cfg : config)
    (cm : communicator) (s : state) :
  (batch_size dl = 0%Z \/ n_procs cm = 0%Z ->
     init dl vdl cfg cm s = Exc ZeroDivisionError s)
  /\ ((0 < batch_size dl)%Z -> (0 < n_procs cm)%Z ->
      dataset_name_cfg cfg <> imagenet -> batch_size vdl = 0%Z ->
      init dl vdl cfg cm s
      = Exc ZeroDivisionError
          (add_dir (path_join (monitor_path cfg) (monitor_val_recon cfg))
             (add_dir (path_join (monitor_path cfg) (monitor_train_recon cfg))
                s))).
Proof.
  split.
  - intros H. unfold init, ceil_div3.
    assert (E : ((batch_size dl =? 0) || (n_procs cm =? 0))%Z = true).
    { destruct H as [-> | ->]; [reflexivity|]. apply orb_true_r. }
    rewrite E. reflexivity.
  - intros Hb Hn Hd Hv. unfold init, makedirs.
    unfold mbind, M_bind, mret, M_ret.
    unfold bind at 1. rewrite (ceil_div3_pos _ _ _ s Hb Hn).
    rewrite !bind_modify.
    apply String.eqb_neq in Hd. rewrite Hd. cbn [negb].
    unfold bind, ceil_div3. rewrite Hv. reflexivity.
Qed.

(** X3.  For the ImageNet dataset [__init__] sets no validation iteration
    count and takes the data variance to be 1; [validate] on such a
    trainer raises AttributeError before it does anything. *)
Theorem imagenet_trainer_cannot_validate (dl vdl : loader) (cfg : config)
    (cm : communicator) (s : state) :
  batch_size dl <> 0%Z -> n_procs cm <> 0%Z ->
  dataset_name_cfg cfg = imagenet ->
  exists t s',
    init dl vdl cfg cm s = Ret t s'
    /\ val_iterations_per_epoch t = None
    /\ data_variance t = np_int 1
    /\ forall epoch s0, validate t epoch s0 = Exc AttributeError s0.
Proof.
  intros Hb Hn Hd. unfold init, makedirs, ceil_div3.
  apply Z.eqb_neq in Hb, Hn. rewrite Hb, Hn, Hd. cbn [orb].
  unfold mbind, M_bind, mret, M_ret.
  rewrite bind_ret, !bind_modify. cbn [String.eqb negb].
  change (imagenet =? imagenet)%string with true. cbn [negb].
  eexists _, _. split; [reflexivity|]. cbn.
  split; [reflexivity|]. split; [reflexivity|].
  intros epoch s0. reflexivity.
Qed.

(** The loop of [train] advances the training iterator by one batch per
    iteration and leaves the validation iterator alone. *)
Lemma train_loop_pos t epoch xs : forall acc s,
  exists acc' s',
    for_fold (train_batch t epoch) acc xs s = Ret acc' s'
    /\ loader_pos s' = (loader_pos s + length xs)%nat
    /\ val_loader_pos s' = val_loader_pos s.
Proof.
  induction xs as [|x xs IH]; intros acc s.
  - exists acc, s. split; [reflexivity|]. simpl. split; [lia|reflexivity].
  - assert (Hb : exists acc1 s1,
              train_batch t epoch acc x s = Ret acc1 s1
              /\ loader_pos s1 = S (loader_pos s)
              /\ val_loader_pos s1 = val_loader_pos s).
    { unfold train_batch, compute_loss, data_next, log_image, save_image.
      msimpl. simpl params. simpl loader_pos.
      destruct (model _ _ _) as [[vq rec] perp].
      destruct (x =? 0)%nat; msimpl;
      match goal with |- context [solver_update ?a ?b ?c ?d] =>
        destruct (solver_update a b c d) as [st p] end;
      (eexists _, _; split; [reflexivity|]); simpl; auto. }
    destruct Hb as (acc1 & s1 & Hb & Hp & Hv).
    destruct (IH acc1 s1) as (acc' & s' & Hf & Hp' & Hv').
    exists acc', s'. simpl for_fold. unfold bind at 1. rewrite Hb, Hf.
    split; [reflexivity|]. rewrite Hp', Hp, Hv', Hv. simpl.
    split; [lia|reflexivity].
Qed.

Lemma train_pos t epoch s :
  n_procs (comm t) <> 0%Z -> iterations_per_epoch t <> 0%Z ->
  exists s',
    train t epoch s = Ret tt s'
    /\ loader_pos s'
       = (loader_pos s
          + Z.to_nat (iterations_per_epoch t / n_procs (comm t)))%nat
    /\ val_loader_pos s' = val_loader_pos s.
Proof.
  intros Hn Hi. unfold train, floordiv.
  apply Z.eqb_neq in Hn. rewrite Hn.
  set (s0 := if bool_decide (epoch ∈ learning_rate_decay_epochs t)
             then log (SetLearningRate
                         (learning_rate s * learning_rate_decay_factor t)%Q)
                      (set_lr (learning_rate s
                               * learning_rate_decay_factor t)%Q s)
             else s).
  destruct (train_loop_pos t epoch
              (range (iterations_per_epoch t / n_procs (comm t))) IntZero s0)
    as (acc' & s1 & Hrun & Hp & Hv).
  unfold range in Hp. rewrite length_seq in Hp.
  assert (Hdiv : accum_div acc' (iterations_per_epoch t) s1
                 = Ret (accum_quot acc' (iterations_per_epoch t)) s1).
  { unfold accum_div, accum_quot. destruct acc'; [|reflexivity].
    apply Z.eqb_neq in Hi. now rewrite Hi. }
  eexists. split.
  - msimpl. subst s0. unfold log_loss.
    destruct (bool_decide (epoch ∈ learning_rate_decay_epochs t));
      msimpl; rewrite Hrun, Hdiv; msimpl; reflexivity.
  - subst s0. destruct (bool_decide (epoch ∈ learning_rate_decay_epochs t));
      simpl in *; split; congruence.
Qed.

(** X4.  Once the worker count and the iteration count are not zero,
    [train] returns after floor(iterations_per_epoch / n_procs) iterations:
    that many fetches from the training iterator, forward passes, backward
    passes, gradient reductions and optimizer updates. *)
Theorem train_runs_floor_iterations (t : trainer) (epoch : Z) (s : state) :
  n_procs (comm t) <> 0%Z -> iterations_per_epoch t <> 0%Z ->
  exists s',
    let n := Z.to_nat (iterations_per_epoch t / n_procs (comm t)) in
    train t epoch s = Ret tt s'
    /\ count is_data_next (calls s') = (count is_data_next (calls s) + n)%nat
    /\ count is_forward (calls s') = (count is_forward (calls s) + n)%nat
    /\ count is_backward (calls s') = (count is_backward (calls s) + n)%nat
    /\ count is_all_reduce (calls s')
       = (count is_all_reduce (calls s) + n)%nat
    /\ count is_update (calls s') = (count is_update (calls s) + n)%nat
    /\ loader_pos s' = (loader_pos s + n)%nat
    /\ val_loader_pos s' = val_loader_pos s.
Proof.
  intros Hn Hi.
  destruct (train_iteration_count t epoch s Hn Hi) as (s' & Hrun & Hc).
  destruct (train_pos t epoch s Hn Hi) as (s'' & Hrun' & Hp & Hv).
  rewrite Hrun in Hrun'. injection Hrun' as <-.
  exists s'. cbv zeta. split; [exact Hrun|].
  repeat (split; [apply Hc; simpl; tauto|]). split; assumption.
Qed.

Lemma fold_accum_np ls : forall v,
  fold_left accum_add ls (Arr v) = Arr (fold_left np_add ls v).
Proof. induction ls as [|l ls IH]; intros v; simpl; auto. Qed.

Lemma accum_quot_mean losses d :
  losses <> [] -> Z.of_nat (length losses) = d ->
  accum_quot (fold_left accum_add losses IntZero) d = mean_loss losses.
Proof.
  intros Hne <-. destruct losses as [|l ls]; [congruence|].
  unfold mean_loss. simpl fold_left. now rewrite fold_accum_np.
Qed.

(** X5.  Once the worker count and the iteration count are not zero,
    [train] logs one training loss for the epoch: the batch losses shown
    on the progress bar, summed in order, divided by
    [iterations_per_epoch]; it logs no validation loss. *)
Theorem train_logs_sum_over_iterations_per_epoch (t : trainer) (epoch : Z)
    (s : state) :
  n_procs (comm t) <> 0%Z -> iterations_per_epoch t <> 0%Z ->
  exists losses s',
    train t epoch s = Ret tt s'
    /\ displayed (calls s') = displayed (calls s) ++ losses
    /\ length losses = Z.to_nat (iterations_per_epoch t / n_procs (comm t))
    /\ monitor_train_loss s'
       = monitor_train_loss s
         ++ [(epoch, accum_quot (fold_left accum_add losses IntZero)
                                (iterations_per_epoch t))]
    /\ monitor_val_loss s' = monitor_val_loss s.
Proof.
  intros Hn Hi.
  destruct (train_spec t epoch s Hn Hi)
    as (losses & s' & Hrun & Hlen & Hmt & Hmv & _ & Hc).
  exists losses, s'. split_all; try assumption.
  rewrite Hc, !displayed_app, displayed_rounds by reflexivity.
  destruct (bool_decide _); reflexivity.
Qed.

(** X6.  With one worker and a positive iteration count the loss that
    [train] logs is the arithmetic mean of the batch losses of the
    epoch. *)
Theorem train_single_worker_logs_mean (t : trainer) (epoch : Z) (s : state) :
  n_procs (comm t) = 1%Z -> (0 < iterations_per_epoch t)%Z ->
  exists losses s',
    train t epoch s = Ret tt s'
    /\ displayed (calls s') = displayed (calls s) ++ losses
    /\ Z.of_nat (length losses) = iterations_per_epoch t
    /\ monitor_train_loss s'
       = monitor_train_loss s ++ [(epoch, mean_loss losses)].
Proof.
  intros Hn Hi.
  destruct (train_logs_sum_over_iterations_per_epoch t epoch s)
    as (losses & s' & Hrun & Hd & Hlen & Hmt & _); [lia|lia|].
  rewrite Hn, Z.div_1_r in Hlen.
  assert (Hl : Z.of_nat (length losses) = iterations_per_epoch t) by lia.
  exists losses, s'. split_all; try assumption.
  rewrite Hmt, accum_quot_mean; [reflexivity| |exact Hl].
  intros ->. simpl in Hl. lia.
Qed.

(** X7.  With more workers than iterations per epoch the loop bound
    iterations_per_epoch // n_procs is zero: [train] runs no batch, makes
    no update, and logs the loss 0 for the epoch. *)
Theorem train_idle_when_workers_exceed_iterations (t : trainer) (epoch : Z)
    (s : state) :
  (0 < iterations_per_epoch t < n_procs (comm t))%Z ->
  exists s',
    train t epoch s = Ret tt s'
    /\ monitor_train_loss s' = monitor_train_loss s ++ [(epoch, Finite 0)]
    /\ displayed (calls s') = displayed (calls s)
    /\ count is_update (calls s') = count is_update (calls s)
    /\ loader_pos s' = loader_pos s
    /\ params s' = params s /\ solver_states s' = solver_states s.
Proof.
  intros H. unfold train, floordiv.
  replace (n_procs (comm t) =? 0)%Z with false
    by (symmetry; apply Z.eqb_neq; lia).
  rewrite Z.div_small by lia. unfold range. simpl seq. simpl for_fold.
  unfold accum_div.
  replace (iterations_per_epoch t =? 0)%Z with false
    by (symmetry; apply Z.eqb_neq; lia).
  unfold log_loss. msimpl.
  destruct (bool_decide (epoch ∈ learning_rate_decay_epochs t)); msimpl;
    (eexists; split; [reflexivity|]); simpl;
    rewrite ?displayed_app, ?count_app; simpl; rewrite ?app_nil_r;
    split_all; try reflexivity; unfold count; simpl; lia.
Qed.

(** X8.  [train] raises ZeroDivisionError, having changed nothing, when the
    worker count is zero.  When the iteration count is zero it raises
    ZeroDivisionError at the final division: no loss is logged and no
    batch is run, but the learning rate has already been decayed when the
    epoch is a decay epoch. *)
Theorem train_zero_division (t : trainer) (epoch : Z) (s : state) :
  (n_procs (comm t) = 0%Z -> train t epoch s = Exc ZeroDivisionError s)
  /\ (n_procs (comm t) <> 0%Z -> iterations_per_epoch t = 0%Z ->
      exists s',
        train t epoch s = Exc ZeroDivisionError s'
        /\ monitor_train_loss s' = monitor_train_loss s
        /\ count is_update (calls s') = count is_update (calls s)
        /\ learning_rate s'
           = if bool_decide (epoch ∈ learning_rate_decay_epochs t)
             then (learning_rate s * learning_rate_decay_factor t)%Q
             else learning_rate s).
Proof.
  split.
  - intros Hn. unfold train, floordiv. rewrite Hn. reflexivity.
  - intros Hn Hi. unfold train, floordiv.
    apply Z.eqb_neq in Hn. rewrite Hn, Hi.
    rewrite Z.div_0_l by (apply Z.eqb_neq; exact Hn).
    unfold range. simpl seq. simpl for_fold. unfold accum_div.
    simpl Z.eqb. msimpl.
    destruct (bool_decide (epoch ∈ learning_rate_decay_epochs t)); msimpl;
      (eexists; split; [reflexivity|]); simpl;
      rewrite ?count_app; simpl; split_all; try reflexivity;
      unfold count; simpl; lia.
Qed.

(** One iteration of the training loop writes the reconstruction image of
    the epoch when it is the first, and no file otherwise. *)
Lemma train_batch_files t epoch acc i s :
  exists acc' s',
    train_batch t epoch acc i s = Ret acc' s'
    /\ files s'
       = (if (i =? 0)%nat
          then <[ recon_file (train_recon_path t) epoch
                  := ImageFile (map (fun x => x * (1#2) + (1#2))%Q
                                    (reconstruction t false s)) ]> (files s)
          else files s).
Proof.
  unfold train_batch, compute_loss, data_next, log_image, save_image,
    reconstruction, next_input, recon_file.
  msimpl. simpl params. simpl loader_pos.
  destruct (model _ _ _) as [[vq rec] perp].
  destruct (i =? 0)%nat; msimpl;
  match goal with |- context [solver_update ?a ?b ?c ?d] =>
    destruct (solver_update a b c d) as [st p] end;
  (eexists _, _; split; [reflexivity|]); reflexivity.
Qed.

Lemma train_loop_files t epoch k n : forall acc s,
  exists acc' s',
    for_fold (train_batch t epoch) acc (seq (S k) n) s = Ret acc' s'
    /\ files s' = files s.
Proof.
  revert k. induction n as [|n IH]; intros k acc s.
  - exists acc, s. split; reflexivity.
  - destruct (train_batch_files t epoch acc (S k) s) as (a1 & s1 & Hb & Hf).
    destruct (IH (S k) a1 s1) as (a2 & s2 & Hl & Hf2).
    exists a2, s2. simpl seq. simpl for_fold. unfold bind at 1.
    rewrite Hb, Hl. split; [reflexivity|]. now rewrite Hf2, Hf.
Qed.

(** X9.  When [train] runs at least one batch, the file
    [epoch_<epoch>.png] of the training reconstruction directory holds,
    after the epoch, the reconstruction of the first batch of the epoch
    mapped back by x * 0.5 + 0.5; the later batches write no file. *)
Theorem train_saves_first_reconstruction (t : trainer) (epoch : Z)
    (s : state) :
  n_procs (comm t) <> 0%Z ->
  (0 < iterations_per_epoch t / n_procs (comm t))%Z ->
  exists s',
    train t epoch s = Ret tt s'
    /\ files s'
       = <[ recon_file (train_recon_path t) epoch
            := ImageFile (map (fun x => x * (1#2) + (1#2))%Q
                              (reconstruction t false s)) ]> (files s).
Proof.
  intros Hn Hk. unfold train, floordiv.
  apply Z.eqb_neq in Hn. rewrite Hn.
  set (s0 := if bool_decide (epoch ∈ learning_rate_decay_epochs t)
             then log (SetLearningRate
                         (learning_rate s * learning_rate_decay_factor t)%Q)
                      (set_lr (learning_rate s
                               * learning_rate_decay_factor t)%Q s)
             else s).
  assert (Hs0 : files s0 = files s
                /\ reconstruction t false s0 = reconstruction t false s).
  { subst s0. destruct (bool_decide _); split; reflexivity. }
  destruct Hs0 as [Hf0 Hr0].
  unfold range.
  destruct (Z.to_nat (iterations_per_epoch t / n_procs (comm t)))
    as [|n] eqn:En; [lia|].
  destruct (train_batch_files t epoch IntZero 0 s0) as (a1 & s1 & Hb & Hf1).
  destruct (train_loop_files t epoch 0 n a1 s1) as (a2 & s2 & Hl & Hf2).
  assert (Hloop : for_fold (train_batch t epoch) IntZero (seq 0 (S n)) s0
                  = Ret a2 s2).
  { simpl seq. simpl for_fold. unfold bind at 1. now rewrite Hb, Hl. }
  assert (Ha2 : exists v, a2 = Arr v).
  { destruct (train_loop_spec t epoch (seq 0 (S n)) IntZero s0)
      as (losses & s2' & Hrun & Hlen & _).
    rewrite Hloop in Hrun. injection Hrun as -> _.
    apply fold_accum_arr. intros ->. rewrite length_seq in Hlen.
    discriminate. }
  destruct Ha2 as [v ->].
  eexists. split.
  - msimpl. subst s0. unfold log_loss, accum_div.
    destruct (bool_decide (epoch ∈ learning_rate_decay_epochs t));
      msimpl; rewrite En, Hloop; msimpl; reflexivity.
  - simpl. rewrite Hf2, Hf1, Hf0, Hr0. reflexivity.
Qed.

(** X10.  [validate] on a trainer with a positive validation iteration
    count runs that many batches and logs one validation loss: the batch
    losses, summed in order, divided by the training count
    [iterations_per_epoch]; this is their mean when the two counts are
    equal.  It leaves the parameters, the gradient buffers and the solver
    alone and logs no training loss. *)
Theorem validate_logs_sum_over_training_count (t : trainer) (epoch : Z)
    (s : state) (n : Z) :
  val_iterations_per_epoch t = Some n -> (0 < n)%Z ->
  exists losses s',
    validate t epoch s = Ret tt s'
    /\ displayed (calls s') = displayed (calls s) ++ losses
    /\ Z.of_nat (length losses) = n
    /\ monitor_val_loss s'
       = monitor_val_loss s
         ++ [(epoch, np_div (fold_left np_add losses (Finite 0))
                            (np_int (iterations_per_epoch t)))]
    /\ (iterations_per_epoch t = n ->
        monitor_val_loss s'
        = monitor_val_loss s ++ [(epoch, mean_loss losses)])
    /\ monitor_train_loss s' = monitor_train_loss s
    /\ same_model s s'.
Proof.
  intros Hv Hn.
  destruct (validate_spec t epoch s n Hv Hn)
    as (losses & s' & Hrun & Hlen & Hmv & Hmt & Hc & Hsm).
  assert (Hne : losses <> []).
  { intros ->. simpl in Hlen. lia. }
  assert (Hq : accum_quot (fold_left accum_add losses IntZero)
                          (iterations_per_epoch t)
               = np_div (fold_left np_add losses (Finite 0))
                        (np_int (iterations_per_epoch t))).
  { destruct losses as [|l ls]; [congruence|]. simpl fold_left.
    now rewrite fold_accum_np. }
  exists losses, s'. split_all; try assumption.
  - rewrite Hc, displayed_app, displayed_rounds by reflexivity. reflexivity.
  - lia.
  - now rewrite Hmv, Hq.
  - intros E. rewrite Hmv, Hq, E. unfold mean_loss.
    replace (Z.of_nat (length losses)) with n by lia. reflexivity.
Qed.

(** X11.  [validate] on a trainer whose validation iteration count is zero
    or negative runs no batch.  When [iterations_per_epoch] is not zero it
    logs the validation loss 0 and then raises UnboundLocalError, the
    reconstruction of a last batch being unbound; when it is zero it
    raises ZeroDivisionError, having changed nothing. *)
Theorem validate_without_batches (t : trainer) (epoch : Z) (s : state)
    (n : Z) :
  val_iterations_per_epoch t = Some n -> (n <= 0)%Z ->
  (iterations_per_epoch t <> 0%Z ->
     validate t epoch s
     = Exc UnboundLocalError (add_monitor false (epoch, Finite 0) s))
  /\ (iterations_per_epoch t = 0%Z ->
      validate t epoch s = Exc ZeroDivisionError s).
Proof.
  intros Hv Hn. unfold validate. rewrite Hv. unfold range, log_loss.
  msimpl. replace (Z.to_nat n) with 0%nat by lia.
  simpl seq. simpl for_fold. unfold accum_div. msimpl.
  simpl fst. simpl snd. split.
  - intros Hi. apply Z.eqb_neq in Hi. rewrite Hi. reflexivity.
  - intros ->. reflexivity.
Qed.

(** X12.  [save_image] undoes the rescaling of [convert_to_var]: the image
    written for a converted batch holds the batch itself when all its
    values are below 1, and the batch divided by 255 otherwise. *)
Theorem save_image_inverts_rescale (img : list Q) (path : string)
    (s : state) :
  exists v,
    save_image (convert_to_var img) path s
    = Ret tt (write_file path (ImageFile v) s)
    /\ (Forall (fun x => x < 1)%Q img -> Forall2 Qeq v img)
    /\ (Exists (fun x => 1 <= x)%Q img ->
        Forall2 Qeq v (map (fun x => x / 255)%Q img)).
Proof.
  eexists. split; [reflexivity|]. split; intros H.
  - rewrite (convert_to_var_unit img H), map_map. clear H.
    induction img as [|x img IH]; constructor; [|exact IH]. field.
  - rewrite (convert_to_var_bytes img H), map_map. clear H.
    induction img as [|x img IH]; constructor; [|exact IH]. field.
Qed.

(** X17.  In one training batch the gradient buffers are zeroed, filled by
    the backward pass of the batch, all-reduced by sum, then weight-decayed;
    the solver update reads these gradients and the learning rate, which
    it leaves unchanged, and produces the new solver states and
    parameters. *)
Theorem train_batch_dataflow (t : trainer) (epoch : Z) (acc : accum)
    (i : nat) (s : state) :
  exists acc' s',
    train_batch t epoch acc i s = Ret acc' s'
    /\ grads s'
       = solver_weight_decay (weight_decay t) (params s)
           (all_reduce (comm t) false true
              (loss_backward (params s) (next_input t false s)
                 (data_variance t) (zero_grad (grads s))))
    /\ (solver_states s', params s')
       = solver_update (learning_rate s) (solver_states s) (params s)
                       (grads s')
    /\ learning_rate s' = learning_rate s.
Proof.
  unfold train_batch, compute_loss, data_next, log_image, save_image,
    next_input.
  msimpl. simpl params. simpl loader_pos.
  destruct (model _ _ _) as [[vq rec] perp].
  destruct (i =? 0)%nat; msimpl;
  match goal with |- context [solver_update ?a ?b ?c ?d] =>
    destruct (solver_update a b c d) as [st p] eqn:E end;
  (eexists _, _; split; [reflexivity|]); simpl; simpl in E;
  rewrite E; split_all; reflexivity.
Qed.

End Properties.

(** X13.  On integer byte data the guard of [convert_to_var] is exact:
    every batch of integers between 0 and 255, also the batch that is
    zero everywhere and so passes the guard, is mapped to
    (x / 255 - 0.5) / 0.5. *)
Theorem convert_to_var_byte_data (ks : list Z) :
  Forall (fun k => 0 <= k <= 255)%Z ks ->
  Forall2 Qeq (convert_to_var (map inject_Z ks))
              (map (fun k => (inject_Z k / 255 - (1#2)) / (1#2))%Q ks).
Proof.
  intros H.
  destruct (np_all_lt_1 (map inject_Z ks)) eqn:E.
  - apply np_all_lt_1_true in E.
    rewrite (convert_to_var_unit _ E), map_map.
    rewrite Forall_map in E.
    induction ks as [|k ks IH]; constructor.
    + inversion E as [|? ? Hk _]; subst. inversion H as [|? ? Hb _]; subst.
      assert (k = 0%Z).
      { unfold Qlt, inject_Z in Hk. simpl in Hk. lia. }
      subst k. reflexivity.
    + inversion E; inversion H; subst. apply IH; assumption.
  - unfold convert_to_var. rewrite E. simpl negb. cbv iota.
    rewrite !map_map. clear.
    induction ks as [|k ks IH]; constructor; [reflexivity|exact IH].
Qed.

Lemma convert_to_var_byte_data_witness :
  Forall2 Qeq (convert_to_var (map inject_Z [0; 128; 255]%Z))
              (map (fun k => (inject_Z k / 255 - (1#2)) / (1#2))%Q
                   [0; 128; 255]%Z).
Proof.
  apply (convert_to_var_byte_data [0; 128; 255]%Z).
  repeat constructor; discriminate.
Defined.

(** *** Checkpoints of different epochs *)

Lemma length_append (a b : string) :
  String.length (a +:+ b) = (String.length a + String.length b)%nat.
Proof.
  induction a as [|c a IH]; [reflexivity|].
  rewrite append_cons. simpl. now rewrite IH.
Qed.

(** Two strings that end with suffixes of the same length are equal only
    when the prefixes and the suffixes are. *)
Lemma append_inj_both (a b c d : string) :
  String.length c = String.length d ->
  a +:+ c = b +:+ d -> a = b /\ c = d.
Proof.
  intros Hl. revert b. induction a as [|x a IH]; intros [|y b] H.
  - rewrite !append_nil in H. auto.
  - exfalso. apply (f_equal String.length) in H.
    rewrite append_nil, length_append in H. simpl in H. lia.
  - exfalso. apply (f_equal String.length) in H.
    rewrite append_nil, length_append in H. simpl in H. lia.
  - rewrite !append_cons in H. injection H as -> H.
    destruct (IH b H) as [-> ->]. auto.
Qed.

Lemma str_inj (a b : Z) : str a = str b -> a = b.
Proof.
  unfold str. intros H.
  assert (Hn : forall z, Z.to_int z <> Decimal.Pos Decimal.Nil
                         /\ Z.to_int z <> Decimal.Neg Decimal.Nil).
  { intros z. destruct z as [|p|p]; simpl; split; try discriminate;
      intros E; injection E as E; revert E;
      apply DecimalPos.Unsigned.to_uint_nonnil. }
  apply DecimalZ.to_int_inj.
  pose proof (NilZero.isi (Z.to_int a) (proj1 (Hn a)) (proj2 (Hn a))) as Ha.
  pose proof (NilZero.isi (Z.to_int b) (proj1 (Hn b)) (proj2 (Hn b))) as Hb.
  rewrite H in Ha. rewrite Ha in Hb. now injection Hb.
Qed.

(** The checkpoint directories of two epochs under one base path are
    equal only when the epochs are. *)
Lemma checkpoint_dir_inj (path : string) (e1 e2 : Z) :
  checkpoint_dir path e1 = checkpoint_dir path e2 -> e1 = e2.
Proof.
  unfold checkpoint_dir, path_join. simpl startswith_sep. cbv iota.
  intros H. apply str_inj.
  destruct (String.eqb path EmptyString || endswith_sep path).
  - apply append_inj_r in H. now apply append_inj_r in H.
  - apply append_inj_r in H. apply append_inj_r in H.
    now apply append_inj_r in H.
Qed.

Lemma checkpoint_files_apart (path : string) (e1 e2 : Z) (n1 n2 : string) :
  e1 <> e2 -> String.length n1 = String.length n2 ->
  checkpoint_dir path e1 +:+ "/" +:+ n1
  <> checkpoint_dir path e2 +:+ "/" +:+ n2.
Proof.
  intros He Hl H. apply append_inj_both in H as [H _].
  - apply checkpoint_dir_inj in H. contradiction.
  - rewrite !length_append. simpl. now rewrite Hl.
Qed.

Section Checkpoints.
Context `{FW : Framework}.

(** X14.  Checkpoints of different epochs under one base path do not
    collide: after a checkpoint of epoch [e1], a later checkpoint of
    another epoch [e2], saved when the parameters and solver states have
    changed but the files have not, leaves the first one in place, and
    [load_checkpoint] on the directory of [e1] still returns with the
    parameters and solver states saved at [e1]. *)
Theorem checkpoints_of_epochs_are_disjoint (t : trainer) (path : string)
    (e1 e2 : Z) (s later : state) :
  e1 <> e2 ->
  files later = files (final (save_checkpoint t path e1 s)) ->
  exists s2 s3,
    save_checkpoint t path e2 later = Ret tt s2
    /\ load_checkpoint t (checkpoint_dir path e1) s2 = Ret tt s3
    /\ params s3 = params s
    /\ solver_states s3 = solver_states s.
Proof.
  intros He Hfiles.
  destruct (save_checkpoint_spec t path e1 s)
    as (s1 & Hs1 & _ & Hf1 & _).
  rewrite Hs1 in Hfiles. simpl in Hfiles.
  destruct (save_checkpoint_spec t path e2 later)
    as (s2 & Hs2 & _ & Hf2 & _).
  fold (checkpoint_dir path e1) in Hf1.
  fold (checkpoint_dir path e2) in Hf2.
  destruct (load_checkpoint_spec t (checkpoint_dir path e1) s2
              (params s) (solver_states s)) as (s3 & Hl & Hp & Hst & _).
  - unfold checkpoint_dir. rewrite checkpoint_file_path by reflexivity.
    fold (checkpoint_dir path e1).
    rewrite Hf2, Hfiles, Hf1.
    rewrite !lookup_insert_ne
      by (apply not_eq_sym, checkpoint_files_apart; auto).
    rewrite lookup_insert_ne
      by (intros H; apply append_inj_r in H; discriminate).
    apply lookup_insert_eq.
  - unfold checkpoint_dir. rewrite checkpoint_file_path by reflexivity.
    fold (checkpoint_dir path e1).
    rewrite Hf2, Hfiles, Hf1.
    rewrite !lookup_insert_ne
      by (apply not_eq_sym, checkpoint_files_apart; auto).
    apply lookup_insert_eq.
  - exists s2, s3. auto.
Qed.

(** X15.  [load_checkpoint] is not atomic.  Without a parameter file in
    the directory it raises, having changed nothing; with a parameter file
    but without a solver file it raises after the parameters have been
    replaced by the saved ones, the solver states being those from before
    the call. *)
Theorem load_checkpoint_missing_file (t : trainer) (dir : string)
    (s : state) :
  (files s !! path_join dir "params.h5" = None ->
     load_checkpoint t dir s = Exc OSError s)
  /\ (forall p,
        files s !! path_join dir "params.h5" = Some (ParamsFile p) ->
        files s !! path_join dir "solver.h5" = None ->
        exists s',
          load_checkpoint t dir s = Exc OSError s'
          /\ params s' = p
          /\ solver_states s' = solver_states s).
Proof.
  split.
  - intros H. unfold load_checkpoint. msimpl. rewrite H. reflexivity.
  - intros p Hp Hs. unfold load_checkpoint. msimpl. rewrite Hp. msimpl.
    cbn [files log set_params]. rewrite Hs.
    eexists. split; [reflexivity|]. split; reflexivity.
Qed.

(** X16.  [save_checkpoint] writes the two files of its directory and
    nothing else: every other file is as before, and so are the
    parameters, the gradient buffers, the solver and the monitors. *)
Theorem save_checkpoint_frame (t : trainer) (path : string) (epoch : Z)
    (s : state) (other : string) :
  other <> checkpoint_dir path epoch +:+ "/" +:+ "params.h5" ->
  other <> checkpoint_dir path epoch +:+ "/" +:+ "solver.h5" ->
  exists s',
    save_checkpoint t path epoch s = Ret tt s'
    /\ files s' !! other = files s !! other
    /\ same_model s s'
    /\ monitor_train_loss s' = monitor_train_loss s
    /\ monitor_val_loss s' = monitor_val_loss s.
Proof.
  intros H1 H2. unfold save_checkpoint, makedirs.
  rewrite !checkpoint_file_path by reflexivity. msimpl.
  eexists. split; [reflexivity|]. unfold same_model. simpl.
  fold (checkpoint_dir path epoch).
  rewrite !lookup_insert_ne by congruence. now split_all.
Qed.

End Checkpoints.
(** *** The properties at concrete trainers *)


Lemma init_zero_division_witness :
  init (vq_loader_sized 100 0) (vq_loader 20) vq_config (vq_comm 2) vq_state
  = Exc ZeroDivisionError vq_state
  /\ init (vq_loader 100) (vq_loader_sized 20 0) vq_config (vq_comm 2)
          vq_state
     = Exc ZeroDivisionError vq_ready.
Proof.
  split.
  - apply (proj1 (init_zero_division (vq_loader_sized 100 0) (vq_loader 20)
                    vq_config (vq_comm 2) vq_state)).
    left. reflexivity.
  - apply (proj2 (init_zero_division (vq_loader 100) (vq_loader_sized 20 0)
                    vq_config (vq_comm 2) vq_state));
      reflexivity || discriminate.
Defined.

Lemma imagenet_trainer_cannot_validate_witness :
  exists t s',
    init (vq_loader 100) (vq_loader 20) vq_config_imagenet (vq_comm 2)
         vq_state = Ret t s'
    /\ validate t 0 s' = Exc AttributeError s'.
Proof.
  destruct (imagenet_trainer_cannot_validate (vq_loader 100) (vq_loader 20)
              vq_config_imagenet (vq_comm 2) vq_state)
    as (t & s' & H1 & _ & _ & H2); try reflexivity; try discriminate.
  exists t, s'. split; [exact H1|apply H2].
Defined.

Lemma train_runs_floor_iterations_witness :
  exists s',
    train (vq_trainer 2 5 1) 0 vq_ready = Ret tt s'
    /\ count is_update (calls s') = 2%nat
    /\ loader_pos s' = 2%nat.
Proof.
  destruct (train_runs_floor_iterations (vq_trainer 2 5 1) 0 vq_ready)
    as (s' & H1 & _ & _ & _ & _ & H2 & H3 & _); try discriminate.
  exists s'. repeat split; assumption.
Defined.

Lemma train_logs_sum_over_iterations_per_epoch_witness :
  exists losses s',
    train (vq_trainer 2 5 1) 0 vq_ready = Ret tt s'
    /\ length losses = 2%nat
    /\ monitor_train_loss s'
       = [(0%Z, accum_quot (fold_left accum_add losses IntZero) 5)].
Proof.
  destruct (train_logs_sum_over_iterations_per_epoch
              (vq_trainer 2 5 1) 0 vq_ready)
    as (losses & s' & H1 & _ & H2 & H3 & _); try discriminate.
  exists losses, s'. repeat split; assumption.
Defined.

Lemma train_single_worker_logs_mean_witness :
  exists losses s',
    train (vq_trainer 1 10 2) 0 vq_ready = Ret tt s'
    /\ Z.of_nat (length losses) = 10%Z
    /\ monitor_train_loss s' = [(0%Z, mean_loss losses)].
Proof.
  destruct (train_single_worker_logs_mean (vq_trainer 1 10 2) 0 vq_ready)
    as (losses & s' & H1 & _ & H2 & H3); try reflexivity.
  exists losses, s'. repeat split; assumption.
Defined.

Lemma train_idle_when_workers_exceed_iterations_witness :
  exists s',
    train (vq_trainer 4 3 1) 0 vq_ready = Ret tt s'
    /\ monitor_train_loss s' = [(0%Z, Finite 0)]
    /\ count is_update (calls s') = 0%nat.
Proof.
  destruct (train_idle_when_workers_exceed_iterations
              (vq_trainer 4 3 1) 0 vq_ready)
    as (s' & H1 & H2 & _ & H3 & _); [simpl; lia|].
  exists s'. repeat split; assumption.
Defined.

Lemma train_zero_division_witness :
  train (vq_trainer 0 5 1) 2 vq_ready = Exc ZeroDivisionError vq_ready
  /\ exists s',
       train (vq_trainer 2 0 1) 2 vq_ready = Exc ZeroDivisionError s'
       /\ monitor_train_loss s' = []
       /\ learning_rate s' = (1 * (1 # 2))%Q.
Proof.
  split.
  - apply (proj1 (train_zero_division (vq_trainer 0 5 1) 2 vq_ready)).
    reflexivity.
  - destruct (proj2 (train_zero_division (vq_trainer 2 0 1) 2 vq_ready))
      as (s' & H1 & H2 & _ & H3); [discriminate|reflexivity|].
    exists s'. repeat split; assumption.
Defined.

Lemma train_saves_first_reconstruction_witness :
  exists s',
    train (vq_trainer 2 5 1) 0 vq_ready = Ret tt s'
    /\ files s'
       = <[ recon_file "tmp.monitor/train" 0
            := ImageFile (map (fun x => x * (1#2) + (1#2))%Q
                              (reconstruction (vq_trainer 2 5 1) false
                                              vq_ready)) ]> ∅.
Proof.
  apply (train_saves_first_reconstruction (vq_trainer 2 5 1) 0 vq_ready).
  - discriminate.
  - reflexivity.
Defined.

Lemma validate_logs_sum_over_training_count_witness :
  exists losses s',
    validate (vq_trainer 1 10 2) 0 vq_ready = Ret tt s'
    /\ Z.of_nat (length losses) = 2%Z
    /\ monitor_val_loss s'
       = [(0%Z, np_div (fold_left np_add losses (Finite 0)) (np_int 10))].
Proof.
  destruct (validate_logs_sum_over_training_count
              (vq_trainer 1 10 2) 0 vq_ready 2)
    as (losses & s' & H1 & _ & H2 & H3 & _); try reflexivity.
  exists losses, s'. repeat split; assumption.
Defined.

Lemma validate_without_batches_witness :
  validate (vq_trainer 1 10 0) 0 vq_ready
  = Exc UnboundLocalError (add_monitor false (0%Z, Finite 0) vq_ready)
  /\ validate (vq_trainer 1 0 0) 0 vq_ready
     = Exc ZeroDivisionError vq_ready.
Proof.
  split.
  - apply (proj1 (validate_without_batches (vq_trainer 1 10 0) 0 vq_ready 0
                    eq_refl ltac:(lia))).
    discriminate.
  - apply (proj2 (validate_without_batches (vq_trainer 1 0 0) 0 vq_ready 0
                    eq_refl ltac:(lia))).
    reflexivity.
Defined.

Lemma save_image_inverts_rescale_witness :
  exists v,
    save_image (convert_to_var [0; 1#2]%Q) "a.png" vq_ready
    = Ret tt (write_file "a.png" (ImageFile v) vq_ready)
    /\ Forall2 Qeq v [0; 1#2]%Q.
Proof.
  destruct (save_image_inverts_rescale [0; 1#2]%Q "a.png" vq_ready)
    as (v & H1 & H2 & _).
  exists v. split; [exact H1|]. apply H2.
  repeat constructor.
Defined.

Lemma checkpoints_of_epochs_are_disjoint_witness :
  exists s2 s3,
    save_checkpoint (vq_trainer 1 10 2) "ckpt" 2
      (set_params 5%Q
         (final (save_checkpoint (vq_trainer 1 10 2) "ckpt" 1 vq_ready)))
    = Ret tt s2
    /\ load_checkpoint (vq_trainer 1 10 2) (checkpoint_dir "ckpt" 1) s2
       = Ret tt s3
    /\ params s3 = 1%Q
    /\ solver_states s3 = 0%nat.
Proof.
  apply (checkpoints_of_epochs_are_disjoint (vq_trainer 1 10 2) "ckpt" 1 2
           vq_ready).
  - discriminate.
  - reflexivity.
Defined.

Lemma load_checkpoint_missing_file_witness :
  load_checkpoint (vq_trainer 1 10 2) "ckpt" vq_ready
  = Exc OSError vq_ready
  /\ exists s',
       load_checkpoint (vq_trainer 1 10 2) "ckpt"
         (write_file "ckpt/params.h5" (ParamsFile (FW := vq_framework) 7%Q)
            vq_ready)
       = Exc OSError s'
       /\ params s' = 7%Q
       /\ solver_states s' = 0%nat.
Proof.
  split.
  - apply (proj1 (load_checkpoint_missing_file (vq_trainer 1 10 2) "ckpt"
                    vq_ready)).
    apply lookup_empty.
  - apply (proj2 (load_checkpoint_missing_file (vq_trainer 1 10 2) "ckpt"
                    (write_file "ckpt/params.h5" (ParamsFile (FW := vq_framework) 7%Q)
            vq_ready))
                 7%Q).
    + apply lookup_insert_eq.
    + simpl files. rewrite lookup_insert_ne by discriminate.
      apply lookup_empty.
Defined.

Lemma save_checkpoint_frame_witness :
  exists s',
    save_checkpoint (vq_trainer 1 10 2) "ckpt" 1 vq_ready = Ret tt s'
    /\ files s' !! "notes.txt" = None
    /\ params s' = 1%Q.
Proof.
  destruct (save_checkpoint_frame (vq_trainer 1 10 2) "ckpt" 1 vq_ready
              "notes.txt")
    as (s' & H1 & H2 & (H3 & _) & _); try discriminate.
  exists s'. split; [exact H1|]. split; [|exact H3].
  rewrite H2. apply lookup_empty.
Defined.

End VQVAEProperties.

(** ** Further properties of the Tacotron2 trainer *)

Module Tacotron2Properties.
Import Py PyFacts Runs Tacotron2 Tacotron2Facts.

(** One step of a straight-line run, with the projections of the new
    state reduced. *)
Ltac mstep :=
  first [ rewrite bind_assoc | rewrite bind_modify | rewrite bind_gets
        | rewrite bind_ret ];
  cbv beta; psimpl.

Section Properties.
Context `{FW : Framework}.

(** X18.  A batch method called before its graph is built raises KeyError
    at the lookup of the placeholder and changes nothing: no gradient is
    zeroed and no batch is fetched. *)
Theorem batch_before_graph_raises (t : trainer) (s : state) :
  (placeholder s !! "train" = None -> train_on_batch t s = Exc KeyError s)
  /\ (placeholder s !! "valid" = None ->
      valid_on_batch t s = Exc KeyError s).
Proof.
  split; intros H.
  - unfold train_on_batch, getitem, mbind, M_bind.
    rewrite bind_gets, H. reflexivity.
  - unfold valid_on_batch, getitem, mbind, M_bind.
    rewrite bind_gets, H. reflexivity.
Qed.

Lemma inputs_of_log key c s : inputs_of key (log c s) = inputs_of key s.
Proof. reflexivity. Qed.

Lemma inputs_of_set_params key p s :
  inputs_of key (set_params p s) = inputs_of key s.
Proof. reflexivity. Qed.

Lemma inputs_of_set_grads key g s :
  inputs_of key (set_grads g s) = inputs_of key s.
Proof. reflexivity. Qed.

Lemma inputs_of_set_optimizer_states key st s :
  inputs_of key (set_optimizer_states st s) = inputs_of key s.
Proof. reflexivity. Qed.

Lemma inputs_of_set_loss key l s :
  inputs_of key (set_loss l s) = inputs_of key s.
Proof. reflexivity. Qed.

Lemma inputs_of_set_pos key b n s :
  inputs_of key (set_pos b n s) = inputs_of key s.
Proof. reflexivity. Qed.

Lemma inputs_of_set_input_ne key key' x d s :
  key <> key' -> inputs_of key' (set_input key x d s) = inputs_of key' s.
Proof.
  intros H. unfold inputs_of. cbn [inputs set_input].
  now rewrite lookup_insert_ne.
Qed.

(** The data bound to the inputs of a graph, through the updates that do
    not bind data to it. *)
Ltac inputs_frame :=
  repeat first
    [ rewrite inputs_of_log | rewrite inputs_of_set_params
    | rewrite inputs_of_set_grads | rewrite inputs_of_set_optimizer_states
    | rewrite inputs_of_set_loss | rewrite inputs_of_set_pos
    | rewrite inputs_of_set_input_ne by discriminate ].

Tactic Notation "inputs_frame" "in" hyp(H) :=
  repeat first
    [ rewrite inputs_of_log in H | rewrite inputs_of_set_params in H
    | rewrite inputs_of_set_grads in H
    | rewrite inputs_of_set_optimizer_states in H
    | rewrite inputs_of_set_loss in H | rewrite inputs_of_set_pos in H
    | rewrite inputs_of_set_input_ne in H by discriminate ].

(** One training batch on a built graph, with the data it moves. *)
Lemma train_on_batch_flow t s p l_net :
  placeholder s !! "train" = Some p ->
  (forall k, In k used_handles -> is_Some (p !! k)) ->
  p !! "l_net" = Some l_net ->
  exists s',
    train_on_batch t s = Ret tt s'
    /\ placeholder s' = placeholder s
    /\ loss s' = loss s
    /\ train_pos s' = S (train_pos s)
    /\ valid_pos s' = valid_pos s
    /\ inputs_of "valid" s' = inputs_of "valid" s
    /\ grads s'
       = (if (1 <? n_procs (comm (hp t)))%Z
          then all_reduce_grads (comm (hp t)) true false
          else fun g => g)
           (node_backward (params s) l_net (inputs_of "train" s')
                          (zero_grad (grads s)))
    /\ (optimizer_states s', params s')
       = optimizer_update (optimizer_states s) (params s) (grads s').
Proof.
  intros Hp Hk Hln.
  destruct (Hk "x_mel") as [x_mel Hxm]; [simpl; tauto|].
  destruct (Hk "x_txt") as [x_txt Hxt]; [simpl; tauto|].
  destruct (Hk "x_gat") as [x_gat Hxg]; [simpl; tauto|].
  destruct (Hk "l_mel") as [l_mel Hlm]; [simpl; tauto|].
  destruct (Hk "l_gat") as [l_gat Hlg]; [simpl; tauto|].
  unfold train_on_batch, feed, monitor_update, getitem.
  unfold mbind, M_bind, mret, M_ret.
  mstep. rewrite Hp. mstep. mstep.
  rewrite Hxm, Hxt, Hxg, Hln, Hlm, Hlg.
  destruct (1 <? n_procs (comm (hp t)))%Z; repeat mstep;
    destruct (batches _ _) as [[mel txt] gat]; repeat mstep;
    unfold modify; psimpl;
    destruct (optimizer_update _ _ _) as [st pr] eqn:E;
    (eexists; split; [reflexivity|]); psimpl;
    inputs_frame in E; rewrite ?E;
    do 5 (split; [inputs_frame; reflexivity|]);
    split; inputs_frame; rewrite ?E; reflexivity.
Qed.

(** One validation batch on a built graph, with the data it moves. *)
Lemma valid_on_batch_flow t s p l_net :
  placeholder s !! "valid" = Some p ->
  (forall k, In k used_handles -> is_Some (p !! k)) ->
  p !! "l_net" = Some l_net ->
  exists s',
    valid_on_batch t s = Ret tt s'
    /\ placeholder s' = placeholder s
    /\ loss s'
       = np_add (loss s)
           (np_mul (scalar_value (params s) l_net (inputs_of "valid" s'))
                   (np_int (batch_size (hp t))))
    /\ valid_pos s' = S (valid_pos s)
    /\ train_pos s' = train_pos s
    /\ inputs_of "train" s' = inputs_of "train" s
    /\ exists new,
         calls s' = calls s ++ new
         /\ count is_forward new = 1%nat
         /\ In (Forward l_net false true) new.
Proof.
  intros Hp Hk Hln.
  destruct (Hk "x_mel") as [x_mel Hxm]; [simpl; tauto|].
  destruct (Hk "x_txt") as [x_txt Hxt]; [simpl; tauto|].
  destruct (Hk "x_gat") as [x_gat Hxg]; [simpl; tauto|].
  destruct (Hk "l_mel") as [l_mel Hlm]; [simpl; tauto|].
  destruct (Hk "l_gat") as [l_gat Hlg]; [simpl; tauto|].
  unfold valid_on_batch, feed, monitor_update, getitem.
  unfold mbind, M_bind, mret, M_ret.
  mstep. rewrite Hp. mstep.
  rewrite Hxm, Hxt, Hxg, Hln, Hlm, Hlg.
  destruct (1 <? n_procs (comm (hp t)))%Z; repeat mstep;
    destruct (batches _ _) as [[mel txt] gat]; repeat mstep;
    unfold modify; psimpl;
    (eexists; split; [reflexivity|]); psimpl;
    do 5 (split; [inputs_frame; reflexivity|]);
    (eexists; split; [rewrite <- !app_assoc; psimpl; reflexivity|]);
    (split; [reflexivity|]); simpl; tauto.
Qed.

Lemma graph_ready_lookup key h training s :
  placeholder s !! key = Some (list_to_map (build_graph h training)) ->
  graph_ready key s.
Proof.
  intros Hp. eexists. split; [exact Hp|].
  intros k Hk. unfold used_handles in Hk. simpl in Hk.
  repeat (destruct Hk as [<-|Hk]; [vm_compute; eauto|]). contradiction.
Qed.

Lemma graph_ready_placeholder key s s' :
  placeholder s' !! key = placeholder s !! key ->
  graph_ready key s -> graph_ready key s'.
Proof. intros H (p & Hp & Hk). exists p. rewrite H. auto. Qed.

(** X19.  The two calls of [update_graph], for 'train' and for 'valid',
    make the batch methods runnable from any state: a training batch and
    then a validation batch return. *)
Theorem update_graph_then_batches (t : trainer) (s : state) :
  exists s1 s2 s3 s4,
    update_graph t "train" s = Ret tt s1
    /\ update_graph t "valid" s1 = Ret tt s2
    /\ train_on_batch t s2 = Ret tt s3
    /\ valid_on_batch t s3 = Ret tt s4
    /\ model_training s4 = false.
Proof.
  destruct (update_graph_accepts t "train" s) as (s1 & H1 & Hp1 & _);
    [tauto|].
  destruct (update_graph_accepts t "valid" s1)
    as (s2 & H2 & Hp2 & Ht2 & _); [tauto|].
  assert (Hrt : graph_ready "train" s2).
  { apply (graph_ready_lookup "train" (hp t) true).
    rewrite Hp2, lookup_insert_ne by discriminate.
    rewrite Hp1. apply lookup_insert_eq. }
  assert (Hlv : placeholder s2 !! "valid"
                = Some (list_to_map (build_graph (hp t) false))).
  { rewrite Hp2. apply lookup_insert_eq. }
  destruct Hrt as (p & Hp & Hk).
  destruct (Hk "l_net") as [l_net Hln]; [simpl; tauto|].
  destruct (train_on_batch_flow t s2 p l_net Hp Hk Hln)
    as (s3 & H3 & Hp3 & _).
  assert (Hrv : graph_ready "valid" s3).
  { apply (graph_ready_lookup "valid" (hp t) false). now rewrite Hp3. }
  destruct Hrv as (pv & Hpv & Hkv).
  destruct (Hkv "l_net") as [l_netv Hlnv]; [simpl; tauto|].
  destruct (valid_on_batch_flow t s3 pv l_netv Hpv Hkv Hlnv)
    as (s4 & H4 & _).
  exists s1, s2, s3, s4. split_all; try assumption.
  revert H3 H4 Ht2. clear. intros H3 H4 Ht2.
  assert (Hm : forall a b, train_on_batch t a = Ret tt b ->
                           model_training b = model_training a).
  { intros a b. unfold train_on_batch, feed, monitor_update, getitem.
    unfold mbind, M_bind, mret, M_ret.
    rewrite bind_gets. destruct (placeholder a !! "train") as [q|];
      [|discriminate].
    mstep. mstep.
    destruct (1 <? n_procs (comm (hp t)))%Z; repeat mstep;
      destruct (batches _ _) as [[mel txt] gat];
      destruct (q !! "x_mel"); try discriminate; repeat mstep;
      destruct (q !! "x_txt"); try discriminate; repeat mstep;
      destruct (q !! "x_gat"); try discriminate; repeat mstep;
      destruct (q !! "l_net"); try discriminate; repeat mstep;
      destruct (q !! "l_mel"); try discriminate; repeat mstep;
      destruct (q !! "l_gat"); try discriminate; repeat mstep;
      unfold modify; psimpl;
      destruct (optimizer_update _ _ _) as [st pr];
      intros H; injection H as <-; reflexivity. }
  assert (Hv : forall a b, valid_on_batch t a = Ret tt b ->
                           model_training b = model_training a).
  { intros a b. unfold valid_on_batch, feed, monitor_update, getitem.
    unfold mbind, M_bind, mret, M_ret.
    rewrite bind_gets. destruct (placeholder a !! "valid") as [q|];
      [|discriminate].
    mstep.
    destruct (1 <? n_procs (comm (hp t)))%Z; repeat mstep;
      destruct (batches _ _) as [[mel txt] gat];
      destruct (q !! "x_mel"); try discriminate; repeat mstep;
      destruct (q !! "x_txt"); try discriminate; repeat mstep;
      destruct (q !! "x_gat"); try discriminate; repeat mstep;
      destruct (q !! "l_net"); try discriminate; repeat mstep;
      destruct (q !! "l_mel"); try discriminate; repeat mstep;
      destruct (q !! "l_gat"); try discriminate; repeat mstep;
      unfold modify; psimpl;
      intros H; injection H as <-; reflexivity. }
  rewrite (Hv _ _ H4), (Hm _ _ H3), Ht2. reflexivity.
Qed.




(** What the worker of rank 0 does after the loss is normalised, when the
    training graph is built and the checkpoint period is not zero. *)
Lemma report_and_checkpoint_calls t s :
  rank (comm (hp t)) = 0%Z ->
  graph_ready "train" s -> epochs_per_checkpoint (hp t) <> 0%Z ->
  exists s' rest,
    report_and_checkpoint t s = Ret tt s'
    /\ calls s' = calls s ++ MonitorInfo (loss s) :: rest
    /\ loss s' = loss s /\ params s' = params s
    /\ count is_save_parameters rest
       = (if (cur_epoch s mod epochs_per_checkpoint (hp t) =? 0)%Z
          then 1 else 0)%nat
    /\ count is_save_image rest
       = (if (cur_epoch s mod epochs_per_checkpoint (hp t) =? 0)%Z
          then 2 else 0)%nat
    /\ count is_loss_reduce rest = 0%nat
    /\ ((cur_epoch s mod epochs_per_checkpoint (hp t) = 0)%Z ->
        In (Mkdir (output_dir (hp t) (cur_epoch s))) rest
        /\ In (SaveParameters
                 (output_dir (hp t) (cur_epoch s)
                  ++ ["model_" +:+ str (cur_epoch s) +:+ ".h5"])) rest).
Proof.
  intros Hr (p & Hp & Hk) He. unfold report_and_checkpoint.
  apply Z.eqb_eq in Hr. rewrite Hr. apply Z.eqb_neq in He.
  destruct (Hk "o_att") as [o_att Hoa]; [simpl; tauto|].
  destruct (Hk "o_mel") as [o_mel Hom]; [simpl; tauto|].
  unfold getitem. unfold mbind, M_bind, mret, M_ret.
  mstep. rewrite Hp. repeat mstep. rewrite He. repeat mstep.
  destruct (cur_epoch s mod epochs_per_checkpoint (hp t) =? 0)%Z eqn:Em.
  2:{ exists (log (MonitorInfo (loss s)) s), []. split; [reflexivity|].
      psimpl. split_all; try reflexivity.
      intros H. apply Z.eqb_neq in Em. contradiction. }
  repeat mstep. unfold save_output, getitem.
  unfold mbind, M_bind, mret, M_ret.
  rewrite title_att, title_mel, Hoa, Hom.
  repeat mstep. unfold modify.
  eexists _, _. split; [reflexivity|]. psimpl.
  split; [rewrite <- !app_assoc; psimpl; reflexivity|].
  split_all; try reflexivity; unfold output_dir; simpl; tauto.
Qed.

(** X22.  On a worker of rank other than 0, [callback_on_epoch_end]
    returns without any need for a built graph: it reduces the loss over
    the workers when there is more than one, zeroes the accumulator, and
    makes no report, no forward pass and no file. *)
Theorem epoch_end_other_ranks_silent (t : trainer) (s : state) :
  rank (comm (hp t)) <> 0%Z ->
  exists s',
    callback_on_epoch_end t s = Ret tt s'
    /\ calls s'
       = calls s
         ++ (if (1 <? n_procs (comm (hp t)))%Z
             then [AllReduceLoss true false] else [])
         ++ [LossZero]
    /\ loss s' = Finite 0
    /\ params s' = params s /\ grads s' = grads s
    /\ optimizer_states s' = optimizer_states s.
Proof.
  intros Hr. unfold callback_on_epoch_end, normalise_loss,
    report_and_checkpoint.
  apply Z.eqb_neq in Hr. rewrite Hr.
  unfold mbind, M_bind, mret, M_ret.
  destruct (1 <? n_procs (comm (hp t)))%Z; repeat mstep; unfold modify;
    (eexists; split; [reflexivity|]); psimpl;
    rewrite <- ?app_assoc; split_all; reflexivity.
Qed.

(** X23.  On the worker of rank 0, with the training graph built and a
    checkpoint period other than zero, [callback_on_epoch_end] returns
    after reporting the normalised loss.  It writes a checkpoint exactly
    when the epoch is a multiple of [epochs_per_checkpoint]: then it creates
    the directory of the epoch, saves the two images and saves the
    parameters once, in [model_<epoch>.h5] of that directory; otherwise it
    writes nothing. *)
Theorem epoch_end_checkpoint_cadence (t : trainer) (s : state) :
  rank (comm (hp t)) = 0%Z ->
  graph_ready "train" s -> epochs_per_checkpoint (hp t) <> 0%Z ->
  exists s1 s' rest,
    normalise_loss t s = Ret tt s1
    /\ callback_on_epoch_end t s = Ret tt s'
    /\ calls s' = calls s1 ++ MonitorInfo (loss s1) :: rest ++ [LossZero]
    /\ count is_save_parameters rest
       = (if (cur_epoch s mod epochs_per_checkpoint (hp t) =? 0)%Z
          then 1 else 0)%nat
    /\ count is_save_image rest
       = (if (cur_epoch s mod epochs_per_checkpoint (hp t) =? 0)%Z
          then 2 else 0)%nat
    /\ ((cur_epoch s mod epochs_per_checkpoint (hp t) = 0)%Z ->
        In (Mkdir (output_dir (hp t) (cur_epoch s))) rest
        /\ In (SaveParameters
                 (output_dir (hp t) (cur_epoch s)
                  ++ ["model_" +:+ str (cur_epoch s) +:+ ".h5"])) rest)
    /\ params s' = params s.
Proof.
  intros Hr Hg He.
  destruct (normalise_loss_spec t s)
    as (s1 & Hnorm & (Hps & _) & _ & _ & Hph & Hce).
  destruct (report_and_checkpoint_calls t s1 Hr)
    as (s2 & rest & Hrep & Hc & _ & Hp2 & Hsp & Hsi & _ & Hin);
    [|exact He|].
  { eapply graph_ready_placeholder; [|exact Hg]. now rewrite Hph. }
  rewrite Hce in Hsp, Hsi, Hin.
  exists s1, (log LossZero (set_loss (Finite 0) s2)), rest.
  split; [exact Hnorm|]. split.
  { unfold callback_on_epoch_end, mbind, M_bind.
    unfold bind at 1. rewrite Hnorm. unfold bind at 1. rewrite Hrep.
    reflexivity. }
  psimpl. rewrite Hc, <- app_assoc. psimpl.
  split_all; try assumption; try reflexivity. congruence.
Qed.

(** X24.  When [callback_on_epoch_end] raises on the worker of rank 0 the
    loss accumulator is not reset: it keeps the normalised loss of the
    epoch.  This is so when the training graph has not been built
    (KeyError, before any report) and when [epochs_per_checkpoint] is zero
    (ZeroDivisionError, after the report). *)
Theorem epoch_end_failure_keeps_loss (t : trainer) (s : state) :
  rank (comm (hp t)) = 0%Z ->
  exists s1,
    normalise_loss t s = Ret tt s1
    /\ (placeholder s !! "train" = None ->
        callback_on_epoch_end t s = Exc KeyError s1)
    /\ (is_Some (placeholder s !! "train") ->
        epochs_per_checkpoint (hp t) = 0%Z ->
        callback_on_epoch_end t s
        = Exc ZeroDivisionError (log (MonitorInfo (loss s1)) s1)).
Proof.
  intros Hr.
  destruct (normalise_loss_spec t s)
    as (s1 & Hnorm & _ & _ & _ & Hph & _).
  exists s1. split; [exact Hnorm|].
  apply Z.eqb_eq in Hr.
  split.
  - intros Hn. unfold callback_on_epoch_end, mbind, M_bind.
    unfold bind at 1. rewrite Hnorm.
    unfold report_and_checkpoint, getitem, mbind, M_bind.
    rewrite Hr. unfold bind at 1. rewrite bind_gets, Hph, Hn. reflexivity.
  - intros [p Hp] He. unfold callback_on_epoch_end, mbind, M_bind.
    unfold bind at 1. rewrite Hnorm.
    unfold report_and_checkpoint, getitem, mbind, M_bind, mret, M_ret.
    rewrite Hr, He. unfold bind at 1.
    mstep. rewrite Hph, Hp. repeat mstep. reflexivity.
Qed.

(** X25.  With a single worker [callback_on_epoch_end] makes no collective
    call: the worker, of rank 0, reports its own accumulated loss divided
    by the size of the validation set, and the accumulator is zero when
    the callback returns. *)
Theorem epoch_end_single_worker (t : trainer) (s : state) :
  (n_procs (comm (hp t)) <= 1)%Z ->
  rank (comm (hp t)) = 0%Z ->
  graph_ready "train" s -> epochs_per_checkpoint (hp t) <> 0%Z ->
  exists s' rest,
    callback_on_epoch_end t s = Ret tt s'
    /\ calls s'
       = calls s
         ++ MonitorInfo (np_div (loss s)
                                (np_int (size (dataloader_valid t))))
            :: rest
    /\ count is_loss_reduce (calls s') = count is_loss_reduce (calls s)
    /\ loss s' = Finite 0.
Proof.
  intros Hn Hr Hg He.
  destruct (normalise_loss_spec t s)
    as (s1 & Hnorm & _ & Hl & Hc1 & Hph & _).
  replace (1 <? n_procs (comm (hp t)))%Z with false in Hl, Hc1
    by (symmetry; apply Z.ltb_ge; lia).
  rewrite app_nil_r in Hc1.
  destruct (report_and_checkpoint_calls t s1 Hr)
    as (s2 & rest & Hrep & Hc & _ & _ & _ & _ & Hlr & _); [|exact He|].
  { eapply graph_ready_placeholder; [|exact Hg]. now rewrite Hph. }
  exists (log LossZero (set_loss (Finite 0) s2)), (rest ++ [LossZero]).
  split.
  { unfold callback_on_epoch_end, mbind, M_bind.
    unfold bind at 1. rewrite Hnorm. unfold bind at 1. rewrite Hrep.
    reflexivity. }
  psimpl. rewrite Hc, Hc1, Hl, <- app_assoc. psimpl.
  split; [reflexivity|]. split; [|reflexivity].
  rewrite count_calls_app. unfold count at 2. simpl.
  rewrite List.filter_app, length_app. fold (count is_loss_reduce rest).
  rewrite Hlr. simpl. lia.
Qed.

End Properties.

(** *** Runs on the sample trainer *)

Lemma taco_built_ready_train n : graph_ready "train" (taco_built n).
Proof.
  apply (graph_ready_built "train"
           (<[ "valid" := list_to_map
                            (build_graph (hp (taco_trainer n)) false) ]> ∅)
           (hp (taco_trainer n)) true).
  vm_compute. reflexivity.
Qed.


Lemma batch_before_graph_raises_witness :
  train_on_batch (taco_trainer 1) taco_state = Exc KeyError taco_state
  /\ valid_on_batch (taco_trainer 1) taco_state = Exc KeyError taco_state.
Proof.
  split.
  - apply (proj1 (batch_before_graph_raises (taco_trainer 1) taco_state)).
    vm_compute. reflexivity.
  - apply (proj2 (batch_before_graph_raises (taco_trainer 1) taco_state)).
    vm_compute. reflexivity.
Defined.




Lemma epoch_end_other_ranks_silent_witness :
  exists s',
    callback_on_epoch_end (taco_worker 2 1) taco_state = Ret tt s'
    /\ calls s' = [AllReduceLoss true false; LossZero]
    /\ loss s' = Finite 0.
Proof.
  destruct (epoch_end_other_ranks_silent (taco_worker 2 1) taco_state)
    as (s' & H1 & H2 & H3 & _); [discriminate|].
  exists s'. split_all; assumption.
Defined.

Lemma epoch_end_checkpoint_cadence_witness :
  exists s' rest,
    callback_on_epoch_end (taco_trainer 2) (taco_built 2) = Ret tt s'
    /\ count is_save_parameters rest = 1%nat
    /\ count is_save_image rest = 2%nat
    /\ In (SaveParameters ["out"; "output"; "epoch_1"; "model_1.h5"]) rest.
Proof.
  destruct (epoch_end_checkpoint_cadence (taco_trainer 2) (taco_built 2))
    as (s1 & s' & rest & _ & H1 & _ & H2 & H3 & H4 & _);
    [reflexivity|apply taco_built_ready_train|discriminate|].
  exists s', rest. split; [exact H1|].
  split; [rewrite H2; vm_compute; reflexivity|].
  split; [rewrite H3; vm_compute; reflexivity|].
  destruct H4 as [_ H4]; [vm_compute; reflexivity|].
  vm_compute in H4. exact H4.
Defined.

Lemma epoch_end_failure_keeps_loss_witness :
  exists s1,
    normalise_loss (taco_trainer 2) taco_state = Ret tt s1
    /\ callback_on_epoch_end (taco_trainer 2) taco_state = Exc KeyError s1.
Proof.
  destruct (epoch_end_failure_keeps_loss (taco_trainer 2) taco_state)
    as (s1 & H1 & H2 & _); [reflexivity|].
  exists s1. split; [exact H1|]. apply H2. vm_compute. reflexivity.
Defined.

Lemma epoch_end_single_worker_witness :
  exists s' rest,
    callback_on_epoch_end (taco_trainer 1) (taco_built 1) = Ret tt s'
    /\ calls s'
       = calls (taco_built 1)
         ++ MonitorInfo (np_div (loss (taco_built 1)) (np_int 4)) :: rest
    /\ loss s' = Finite 0.
Proof.
  destruct (epoch_end_single_worker (taco_trainer 1) (taco_built 1))
    as (s' & rest & H1 & H2 & _ & H3);
    [simpl; lia|reflexivity|apply taco_built_ready_train|discriminate|].
  exists s', rest. split_all; assumption.
Defined.

End Tacotron2Properties.
